(** * GigaSpeech CTC recipe with a wav2vec2 encoder: a shallow embedding

    The recipe [recipes/GigaSpeech/ASR/CTC/train_with_wav2vec.py] is glue
    code: a subclass [ASR] of the training framework's [Brain] that
    overrides the life-cycle callbacks, and a function [dataio_prepare]
    that adapts sharded archives to padded batches.

    The embedding follows the script.  What Python itself computes
    (string splitting and joining, slicing, [os.path.join], UTF-8
    decoding) is written out as executable functions.  What the script
    obtains from the libraries it imports (torch, torchaudio, speechbrain,
    webdataset) or from the YAML hyper-parameters is an operation of the
    [Framework] interface below, called in the places and with the
    arguments the script uses.  Attributes of [self] that the script reads
    and that may not have been assigned yet are [option] fields; reading
    an absent one raises, as in Python. *)

From Stdlib Require Import ZArith Lia Ascii String List.
From stdpp Require Import gmap strings list fin_maps.
Import ListNotations.

Open Scope string_scope.
Open Scope list_scope.
Open Scope Z_scope.

(** ** Exceptions raised by the recipe's own statements *)

Inductive exn :=
| AttributeError (attr : string)   (* reading an attribute that is not there, or of [None] *)
| TypeError (what : string)        (* iterating over [None] *)
| KeyError (key : string)          (* [d[key]] for a key that is not in [d] *)
| UnicodeDecodeError (pos : nat).  (* [bytes.decode("utf-8")] on ill-formed input *)

Inductive Res (A : Type) :=
| Ok (a : A)
| Raise (e : exn).
Arguments Ok {A} a.
Arguments Raise {A} e.

Definition returns {A} (r : Res A) : bool :=
  match r with Ok _ => true | Raise _ => false end.

(** ** Python built-ins used by the script *)

Module Py.

(** ["".join(parts)] *)
Definition join_empty (parts : list string) : string :=
  String.concat "" parts.

(** [s.split(" ")]: cut at every single space; never the empty list. *)
Fixpoint split_space (s : string) : list string :=
  match s with
  | EmptyString => [EmptyString]
  | String c s' =>
      if Ascii.eqb c " "%char then EmptyString :: split_space s'
      else match split_space s' with
           | w :: ws => String c w :: ws
           | [] => [String c EmptyString]
           end
  end.

(** [l[:k]] for an integer [k]: a negative bound counts from the end. *)
Definition slice_to {A} (k : Z) (l : list A) : list A :=
  if 0 <=? k then firstn (Z.to_nat k) l
  else firstn (Z.to_nat (Z.of_nat (List.length l) + k)) l.

Definition startswith_slash (s : string) : bool :=
  match s with String "/"%char _ => true | _ => false end.

Fixpoint endswith_slash (s : string) : bool :=
  match s with
  | EmptyString => false
  | String c EmptyString => Ascii.eqb c "/"%char
  | String _ s' => endswith_slash s'
  end.

(** [os.path.join(a, b)] (posixpath, two components). *)
Definition os_path_join (a b : string) : string :=
  if startswith_slash b then b
  else if (String.eqb a "" || endswith_slash a)%bool then (a ++ b)%string
  else (a ++ "/" ++ b)%string.

(** *** [bytes.decode("utf-8")] followed by [list(...)]

    A [bytes] object is a [string] of octets.  The decoded text is kept
    as the list of its characters, each character being the octets that
    encode it; decoding is strict (no overlong forms, no surrogates,
    nothing above U+10FFFF). *)

Definition octet (c : ascii) : Z := Z.of_nat (nat_of_ascii c).

Definition is_cont (c : ascii) : bool :=
  (128 <=? octet c) && (octet c <=? 191).

Definition in_range (lo hi : Z) (c : ascii) : bool :=
  (lo <=? octet c) && (octet c <=? hi).

(** Length of the sequence a lead octet announces, with the range the
    second octet must lie in. *)
Definition lead (c : ascii) : option (nat * Z * Z) :=
  let b := octet c in
  if b <=? 127 then Some (1%nat, 0, 0)
  else if b <=? 193 then None
  else if b <=? 223 then Some (2%nat, 128, 191)
  else if b =? 224 then Some (3%nat, 160, 191)
  else if b =? 237 then Some (3%nat, 128, 159)
  else if b <=? 239 then Some (3%nat, 128, 191)
  else if b =? 240 then Some (4%nat, 144, 191)
  else if b <=? 243 then Some (4%nat, 128, 191)
  else if b =? 244 then Some (4%nat, 128, 143)
  else None.

Fixpoint utf8_chars (fuel : nat) (pos : nat) (s : string) : Res (list string) :=
  match fuel with
  | O => match s with EmptyString => Ok [] | _ => Raise (UnicodeDecodeError pos) end
  | S fuel' =>
      match s with
      | EmptyString => Ok []
      | String c0 r0 =>
          match lead c0 with
          | None => Raise (UnicodeDecodeError pos)
          | Some (1%nat, _, _) =>
              match utf8_chars fuel' (S pos) r0 with
              | Ok cs => Ok (String c0 EmptyString :: cs)
              | Raise e => Raise e
              end
          | Some (2%nat, lo, hi) =>
              match r0 with
              | String c1 r1 =>
                  if in_range lo hi c1 then
                    match utf8_chars fuel' (pos + 2) r1 with
                    | Ok cs => Ok (String c0 (String c1 EmptyString) :: cs)
                    | Raise e => Raise e
                    end
                  else Raise (UnicodeDecodeError pos)
              | _ => Raise (UnicodeDecodeError pos)
              end
          | Some (3%nat, lo, hi) =>
              match r0 with
              | String c1 (String c2 r2) =>
                  if in_range lo hi c1 && is_cont c2 then
                    match utf8_chars fuel' (pos + 3) r2 with
                    | Ok cs =>
                        Ok (String c0 (String c1 (String c2 EmptyString)) :: cs)
                    | Raise e => Raise e
                    end
                  else Raise (UnicodeDecodeError pos)
              | _ => Raise (UnicodeDecodeError pos)
              end
          | Some (_, lo, hi) =>
              match r0 with
              | String c1 (String c2 (String c3 r3)) =>
                  if in_range lo hi c1 && is_cont c2 && is_cont c3 then
                    match utf8_chars fuel' (pos + 4) r3 with
                    | Ok cs =>
                        Ok (String c0 (String c1 (String c2 (String c3 EmptyString)))
                              :: cs)
                    | Raise e => Raise e
                    end
                  else Raise (UnicodeDecodeError pos)
              | _ => Raise (UnicodeDecodeError pos)
              end
          end
      end
  end.

(** [list(b.decode("utf-8"))]; every character consumes at least one
    octet, so the length of [b] is fuel enough. *)
Definition decode_utf8_list (b : string) : Res (list string) :=
  utf8_chars (String.length b) 0 b.

End Py.

(** ** Stages, parameter groups and the data that flows through the recipe *)

Inductive Stage := TRAIN | VALID | TEST.

Definition Stage_eqb (a b : Stage) : bool :=
  match a, b with
  | TRAIN, TRAIN | VALID, VALID | TEST, TEST => true
  | _, _ => false
  end.

(** The two parameter sets the script hands to its two optimizers:
    [self.modules.wav2vec2.parameters()] and
    [self.hparams.model.parameters()]. *)
Inductive Group := wav2vec2_parameters | model_parameters.

Definition Group_eqb (a b : Group) : bool :=
  match a, b with
  | wav2vec2_parameters, wav2vec2_parameters
  | model_parameters, model_parameters => true
  | _, _ => false
  end.

(** A record of a shard, the [input_dict] of [shard_extractor]. *)
Record RawRecord := {
  raw_key : string;    (* input_dict["__key__"] *)
  raw_wav : string;    (* input_dict["wav"], bytes *)
  raw_text : string    (* input_dict["text"], bytes *)
}.

(** What iterating a lazy dataset delivers: the items yielded and, when
    the iteration was cut short by an exception, that exception. *)
Record Yielded (A : Type) := {
  items : list A;
  ended_by : option exn
}.
Arguments items {A} y.
Arguments ended_by {A} y.

(** Carrier types that come from the libraries. *)
Class Carriers := {
  R : Type;          (* floating-point scalars *)
  Tensor : Type;     (* torch tensors whose content the recipe never inspects *)
  W : Type;          (* the weights of one parameter group *)
  G : Type;          (* the gradients of one parameter group *)
  Optimizer : Type;  (* the state of a torch optimizer, learning rate included *)
  Sched : Type;      (* the state of a learning-rate scheduler *)
  Metric : Type;     (* an error-rate statistics accumulator *)
  Encoder : Type;    (* a speechbrain CategoricalEncoder *)
  Shards : Type      (* the archive files on disk, and the state of the shuffling *)
}.

Section Recipe.
Context {C : Carriers}.

Definition Dataset (A : Type) : Type := Shards -> Yielded A.

(** Values passed as keyword arguments to [load_or_create]. *)
Inductive PyArg :=
| PStr (s : string)
| PDict (d : gmap string Z)
| PBool (b : bool)
| PDatasets (ds : list (Dataset RawRecord)).

(** One element of a dataset after [shard_extractor]. *)
Record Item := {
  item_id : string;
  item_sig : Tensor;
  item_tokens : list Z      (* torch.LongTensor(tokens_list) *)
}.

(** A [PaddedBatch]: [batch.id], [batch.sig] and [batch.tokens]; a padded
    tensor is the list of its rows along dimension 0, and comes with the
    relative lengths of the rows. *)
Record Batch := {
  b_id : list string;
  b_sig : list Tensor * list R;
  b_tokens : list (list Z) * list R
}.

(** Operations the script calls on the libraries.  They are total
    functions here: an exception raised inside a library (a label the
    encoder does not know, a loss that stays non-finite beyond the
    patience of [check_gradients], a shard that cannot be read) is outside
    this model.  [backward] and [check_gradients] act on the gradients
    only; [step] is the one operation that gives new weights. *)
Class Framework := {
  (* torch and torchaudio *)
  backward : Tensor -> (Group -> G) -> (Group -> G);   (* loss.backward() *)
  zero_grad : G -> G;
  step : Optimizer -> W -> G -> Optimizer * W;
  detach : Tensor -> Tensor;
  int_mul : R -> nat -> Z;                  (* int(utt_len * n) *)
  torchaudio_load : string -> Tensor * Z;
  transpose : Tensor -> Z -> Z -> Tensor;
  squeeze : Tensor -> Z -> Tensor;
  (* speechbrain *)
  ctc_greedy_decode : Tensor -> list R -> Z -> list (list Z);
  check_gradients : Tensor -> (Group -> G) -> bool * (Group -> G);
  update_learning_rate : Optimizer -> R -> Optimizer;
  anneal : Sched -> R -> R * R * Sched;     (* calling a scheduler: (old_lr, new_lr) *)
  metric_append :
    Metric -> list string -> list (list string) -> list (list string) -> Metric;
  summarize : Metric -> string -> R;
  write_stats : Metric -> string;           (* the text write_stats sends to the stream *)
  CategoricalEncoder : Encoder;
  load_or_create :
    Encoder -> list (string * PyArg) -> gmap string string
    -> Encoder * gmap string string;
  encode_sequence : Encoder -> list string -> list Z;
  decode_ndim : Encoder -> list Z -> list string;
  PaddedBatch : list Item -> Batch;
  average : list Tensor -> R;               (* the running average of the batch losses *)
  (* glob and webdataset *)
  glob : string -> list string;
  WebDataset : list string -> string -> Dataset RawRecord;
  shuffle : Z -> Dataset RawRecord -> Dataset RawRecord
}.

Context {F : Framework}.

(** [self.modules]: [env_corrupt] is optional ([hasattr]). *)
Record Modules := {
  wav2vec2 : (Group -> W) -> list Tensor -> Tensor;
  enc : (Group -> W) -> Tensor -> Tensor;
  ctc_lin : (Group -> W) -> Tensor -> Tensor;
  env_corrupt : option (list Tensor -> list R -> list Tensor)
}.

(** The hyper-parameters the script reads, as loaded from the YAML file;
    [augmentation] is optional ([hasattr]). *)
Record HParams := {
  augmentation : option (list Tensor -> list R -> list Tensor);
  log_softmax : Tensor -> Tensor;
  ctc_cost : Tensor -> list (list Z) -> list R -> list R -> Tensor;
  blank_index : Z;
  cer_computer : Metric;            (* what cer_computer() constructs *)
  error_rate_computer : Metric;     (* what error_rate_computer() constructs *)
  wav2vec_opt_class : Optimizer;    (* what wav2vec_opt_class(params) constructs *)
  model_opt_class : Optimizer;      (* what model_opt_class(params) constructs *)
  epoch_counter_current : Z;
  train_shards : string;
  valid_shards : string;
  test_shards : string;
  shard_cache_dir : string;
  shuffle_shards : Z;
  save_folder : string;
  output_folder : string;
  batch_size : Z;
  test_batch_size : Z
}.

(** An optimizer object: its state and the parameters it was built over. *)
Record OptimizerObj := {
  over : Group;
  opt : Optimizer
}.

(** Objects a checkpointer can hold a reference to. *)
Inductive Ref :=
| ref_wav2vec_optimizer     (* the object bound to self.wav2vec_optimizer *)
| ref_model_optimizer       (* the object bound to self.model_optimizer *)
| ref_other (name : string).

Record SaveRequest := {
  meta : gmap string R;
  min_keys : list string
}.

Record Checkpointer := {
  recoverables : gmap string Ref;
  saved : list SaveRequest      (* the calls of save_and_keep_only, oldest first *)
}.

Inductive MetaVal :=
| MInt (z : Z)
| MFloat (r : R)
| MNone.

(** One call of [train_logger.log_stats]. *)
Record LogRecord := {
  stats_meta : list (string * MetaVal);
  log_train_stats : option (gmap string R);
  log_valid_stats : option (gmap string R);
  log_test_stats : option (gmap string R)
}.

(** ** The brain: [self], and what its callbacks can reach

    Besides the attributes of [self], the state holds the objects the
    callbacks mutate through [self.hparams] (the two schedulers, the
    training logger, the attribute [wer_file] that [__main__] assigns),
    the weights and gradients that the modules and the optimizers share,
    and the text files that were written. *)
Record Brain := {
  modules : Modules;
  hparams : HParams;
  checkpointer : option Checkpointer;        (* None unless given to the constructor *)
  tokenizer : option Encoder;                (* assigned by __main__ *)
  cer_metric : option Metric;
  wer_metric : option Metric;
  train_stats : option (gmap string R);
  wav2vec_optimizer : option OptimizerObj;
  model_optimizer : option OptimizerObj;
  weights : Group -> W;
  grads : Group -> G;
  lr_annealing_model : Sched;                (* self.hparams.lr_annealing_model *)
  lr_annealing_wav2vec : Sched;              (* self.hparams.lr_annealing_wav2vec *)
  train_logger : list LogRecord;             (* self.hparams.train_logger, oldest first *)
  wer_file : option string;                  (* self.hparams.wer_file *)
  files : gmap string string                 (* text files, by path *)
}.

Definition set_checkpointer (v : option Checkpointer) (s : Brain) : Brain :=
  Build_Brain (modules s) (hparams s) v (tokenizer s) (cer_metric s) (wer_metric s)
    (train_stats s) (wav2vec_optimizer s) (model_optimizer s) (weights s) (grads s)
    (lr_annealing_model s) (lr_annealing_wav2vec s) (train_logger s) (wer_file s)
    (files s).

Definition set_tokenizer (v : option Encoder) (s : Brain) : Brain :=
  Build_Brain (modules s) (hparams s) (checkpointer s) v (cer_metric s) (wer_metric s)
    (train_stats s) (wav2vec_optimizer s) (model_optimizer s) (weights s) (grads s)
    (lr_annealing_model s) (lr_annealing_wav2vec s) (train_logger s) (wer_file s)
    (files s).

Definition set_cer_metric (v : option Metric) (s : Brain) : Brain :=
  Build_Brain (modules s) (hparams s) (checkpointer s) (tokenizer s) v (wer_metric s)
    (train_stats s) (wav2vec_optimizer s) (model_optimizer s) (weights s) (grads s)
    (lr_annealing_model s) (lr_annealing_wav2vec s) (train_logger s) (wer_file s)
    (files s).

Definition set_wer_metric (v : option Metric) (s : Brain) : Brain :=
  Build_Brain (modules s) (hparams s) (checkpointer s) (tokenizer s) (cer_metric s) v
    (train_stats s) (wav2vec_optimizer s) (model_optimizer s) (weights s) (grads s)
    (lr_annealing_model s) (lr_annealing_wav2vec s) (train_logger s) (wer_file s)
    (files s).

Definition set_train_stats (v : option (gmap string R)) (s : Brain) : Brain :=
  Build_Brain (modules s) (hparams s) (checkpointer s) (tokenizer s) (cer_metric s)
    (wer_metric s) v (wav2vec_optimizer s) (model_optimizer s) (weights s) (grads s)
    (lr_annealing_model s) (lr_annealing_wav2vec s) (train_logger s) (wer_file s)
    (files s).

Definition set_wav2vec_optimizer (v : option OptimizerObj) (s : Brain) : Brain :=
  Build_Brain (modules s) (hparams s) (checkpointer s) (tokenizer s) (cer_metric s)
    (wer_metric s) (train_stats s) v (model_optimizer s) (weights s) (grads s)
    (lr_annealing_model s) (lr_annealing_wav2vec s) (train_logger s) (wer_file s)
    (files s).

Definition set_model_optimizer (v : option OptimizerObj) (s : Brain) : Brain :=
  Build_Brain (modules s) (hparams s) (checkpointer s) (tokenizer s) (cer_metric s)
    (wer_metric s) (train_stats s) (wav2vec_optimizer s) v (weights s) (grads s)
    (lr_annealing_model s) (lr_annealing_wav2vec s) (train_logger s) (wer_file s)
    (files s).

Definition set_weights (v : Group -> W) (s : Brain) : Brain :=
  Build_Brain (modules s) (hparams s) (checkpointer s) (tokenizer s) (cer_metric s)
    (wer_metric s) (train_stats s) (wav2vec_optimizer s) (model_optimizer s) v (grads s)
    (lr_annealing_model s) (lr_annealing_wav2vec s) (train_logger s) (wer_file s)
    (files s).

Definition set_grads (v : Group -> G) (s : Brain) : Brain :=
  Build_Brain (modules s) (hparams s) (checkpointer s) (tokenizer s) (cer_metric s)
    (wer_metric s) (train_stats s) (wav2vec_optimizer s) (model_optimizer s) (weights s) v
    (lr_annealing_model s) (lr_annealing_wav2vec s) (train_logger s) (wer_file s)
    (files s).

Definition set_lr_annealing_model (v : Sched) (s : Brain) : Brain :=
  Build_Brain (modules s) (hparams s) (checkpointer s) (tokenizer s) (cer_metric s)
    (wer_metric s) (train_stats s) (wav2vec_optimizer s) (model_optimizer s) (weights s)
    (grads s) v (lr_annealing_wav2vec s) (train_logger s) (wer_file s) (files s).

Definition set_lr_annealing_wav2vec (v : Sched) (s : Brain) : Brain :=
  Build_Brain (modules s) (hparams s) (checkpointer s) (tokenizer s) (cer_metric s)
    (wer_metric s) (train_stats s) (wav2vec_optimizer s) (model_optimizer s) (weights s)
    (grads s) (lr_annealing_model s) v (train_logger s) (wer_file s) (files s).

Definition set_train_logger (v : list LogRecord) (s : Brain) : Brain :=
  Build_Brain (modules s) (hparams s) (checkpointer s) (tokenizer s) (cer_metric s)
    (wer_metric s) (train_stats s) (wav2vec_optimizer s) (model_optimizer s) (weights s)
    (grads s) (lr_annealing_model s) (lr_annealing_wav2vec s) v (wer_file s) (files s).

Definition set_wer_file (v : option string) (s : Brain) : Brain :=
  Build_Brain (modules s) (hparams s) (checkpointer s) (tokenizer s) (cer_metric s)
    (wer_metric s) (train_stats s) (wav2vec_optimizer s) (model_optimizer s) (weights s)
    (grads s) (lr_annealing_model s) (lr_annealing_wav2vec s) (train_logger s) v (files s).

Definition set_files (v : gmap string string) (s : Brain) : Brain :=
  Build_Brain (modules s) (hparams s) (checkpointer s) (tokenizer s) (cer_metric s)
    (wer_metric s) (train_stats s) (wav2vec_optimizer s) (model_optimizer s) (weights s)
    (grads s) (lr_annealing_model s) (lr_annealing_wav2vec s) (train_logger s) (wer_file s)
    v.

(** ** Statements that read and write [self], and may raise *)

Definition M (A : Type) : Type := Brain -> Res (A * Brain).

Definition ret {A} (a : A) : M A := fun s => Ok (a, s).

Definition bind {A B} (m : M A) (k : A -> M B) : M B :=
  fun s => match m s with
           | Ok (a, s') => k a s'
           | Raise e => Raise e
           end.

Definition raise {A} (e : exn) : M A := fun _ => Raise e.

Definition get : M Brain := fun s => Ok (s, s).

Definition modify (f : Brain -> Brain) : M unit := fun s => Ok (tt, f s).

(** [self.name], for an attribute that may be absent (or [None]). *)
Definition getattr {A} (name : string) (field : Brain -> option A) : M A :=
  fun s => match field s with
           | Some a => Ok (a, s)
           | None => Raise (AttributeError name)
           end.

Notation "'do' x <- m ; k" := (bind m (fun x => k))
  (at level 10, x name, m at level 100, k at level 200).
Notation "'do' ' p <- m ; k" := (bind m (fun x => match x with p => k end))
  (at level 10, p pattern, m at level 100, k at level 200).

(** A list comprehension whose body reads [self]. *)
Fixpoint mapM {A B} (f : A -> M B) (l : list A) : M (list B) :=
  match l with
  | [] => ret []
  | x :: l' => do y <- f x; do ys <- mapM f l'; ret (y :: ys)
  end.

Definition pointwise_set {A} (g : Group) (v : A) (f : Group -> A) : Group -> A :=
  fun g' => if Group_eqb g' g then v else f g'.

(** ** The callbacks of [class ASR(sb.Brain)] *)

(** [compute_forward(self, batch, stage)].  Moving tensors to the device
    leaves their values alone.  The forward pass reads the current
    weights. *)
Definition compute_forward (self : Brain) (batch : Batch) (stage : Stage)
  : Tensor * list R * option (list (list Z)) :=
  let '(wavs, wav_lens) := b_sig batch in
  (* Add augmentation if specified *)
  let '(wavs, wav_lens) :=
    if Stage_eqb stage TRAIN then
      let '(wavs, wav_lens) :=
        match env_corrupt (modules self) with
        | Some env_corrupt =>
            let wavs_noise := env_corrupt wavs wav_lens in
            (wavs ++ wavs_noise, wav_lens ++ wav_lens)
        | None => (wavs, wav_lens)
        end in
      match augmentation (hparams self) with
      | Some augmentation => (augmentation wavs wav_lens, wav_lens)
      | None => (wavs, wav_lens)
      end
    else (wavs, wav_lens) in
  (* Forward pass *)
  let feats := wav2vec2 (modules self) (weights self) wavs in
  let x := enc (modules self) (weights self) feats in
  (* Compute outputs *)
  let logits := ctc_lin (modules self) (weights self) x in
  let p_ctc := log_softmax (hparams self) logits in
  let p_tokens :=
    if negb (Stage_eqb stage TRAIN)
    then Some (ctc_greedy_decode p_ctc wav_lens (blank_index (hparams self)))
    else None in
  (p_ctc, wav_lens, p_tokens).

(** ["".join(self.tokenizer.decode_ndim(seq)).split(" ")] *)
Definition decode_words (seq : list Z) : M (list string) :=
  do tok <- getattr "tokenizer" tokenizer;
  ret (Py.split_space (Py.join_empty (decode_ndim tok seq))).

(** [utt_tokens[:int(utt_len*utt_tokens.shape[0])]] *)
Definition unpad (utt_tokens : list Z) (utt_len : R) : list Z :=
  Py.slice_to (int_mul utt_len (List.length utt_tokens)) utt_tokens.

(** [compute_objectives(self, predictions, batch, stage)] *)
Definition compute_objectives
  (predictions : Tensor * list R * option (list (list Z)))
  (batch : Batch) (stage : Stage) : M Tensor :=
  let '(p_ctc, wav_lens, predicted_tokens) := predictions in
  let ids := b_id batch in
  let '(tokens, tokens_lens) := b_tokens batch in
  do self <- get;
  let '(tokens, tokens_lens) :=
    match env_corrupt (modules self) with
    | Some _ =>
        if Stage_eqb stage TRAIN
        then (tokens ++ tokens, tokens_lens ++ tokens_lens)
        else (tokens, tokens_lens)
    | None => (tokens, tokens_lens)
    end in
  let loss_ctc := ctc_cost (hparams self) p_ctc tokens wav_lens tokens_lens in
  let loss := loss_ctc in
  do _ <- (if negb (Stage_eqb stage TRAIN) then
      (* Decode token terms to words *)
      do predicted_words <-
        match predicted_tokens with
        | Some seqs => mapM decode_words seqs
        | None => raise (TypeError "'NoneType' object is not iterable")
        end;
      do target_words <-
        mapM (fun '(utt_tokens, utt_len) => decode_words (unpad utt_tokens utt_len))
             (combine tokens tokens_lens);
      do wer <- getattr "wer_metric" wer_metric;
      do _ <- modify (set_wer_metric
                        (Some (metric_append wer ids predicted_words target_words)));
      do cer <- getattr "cer_metric" cer_metric;
      modify (set_cer_metric
                (Some (metric_append cer ids predicted_words target_words)))
    else ret tt);
  ret loss.

(** [optimizer.step()]: the optimizer updates the weights it was built
    over, from their gradients. *)
Definition optimizer_step (o : OptimizerObj) (self : Brain)
  : OptimizerObj * (Group -> W) :=
  let '(st, w) := step (opt o) (weights self (over o)) (grads self (over o)) in
  (Build_OptimizerObj (over o) st, pointwise_set (over o) w (weights self)).

(** [optimizer.zero_grad()] *)
Definition optimizer_zero_grad (o : OptimizerObj) (self : Brain) : Group -> G :=
  pointwise_set (over o) (zero_grad (grads self (over o))) (grads self).

(** [fit_batch(self, batch)] *)
Definition fit_batch (batch : Batch) : M Tensor :=
  do self <- get;
  let predictions := compute_forward self batch TRAIN in
  do loss <- compute_objectives predictions batch TRAIN;
  (* loss.backward() *)
  do _ <- modify (fun s => set_grads (backward loss (grads s)) s);
  do self <- get;
  let '(ok, clipped) := check_gradients loss (grads self) in
  do _ <- modify (set_grads clipped);
  do _ <- (if ok then
      do o <- getattr "wav2vec_optimizer" wav2vec_optimizer;
      do _ <- modify (fun s =>
                 let '(o', w) := optimizer_step o s in
                 set_weights w (set_wav2vec_optimizer (Some o') s));
      do o <- getattr "model_optimizer" model_optimizer;
      modify (fun s =>
                 let '(o', w) := optimizer_step o s in
                 set_weights w (set_model_optimizer (Some o') s))
    else ret tt);
  do o <- getattr "wav2vec_optimizer" wav2vec_optimizer;
  do _ <- modify (fun s => set_grads (optimizer_zero_grad o s) s);
  do o <- getattr "model_optimizer" model_optimizer;
  do _ <- modify (fun s => set_grads (optimizer_zero_grad o s) s);
  ret (detach loss).

(** [evaluate_batch(self, batch, stage)] *)
Definition evaluate_batch (batch : Batch) (stage : Stage) : M Tensor :=
  do self <- get;
  let predictions := compute_forward self batch stage in
  do loss <- compute_objectives predictions batch stage;
  ret (detach loss).

(** [on_stage_start(self, stage, epoch)] *)
Definition on_stage_start (stage : Stage) (epoch : option Z) : M unit :=
  if negb (Stage_eqb stage TRAIN) then
    do self <- get;
    do _ <- modify (set_cer_metric (Some (cer_computer (hparams self))));
    modify (set_wer_metric (Some (error_rate_computer (hparams self))))
  else ret tt.

Definition epoch_val (epoch : option Z) : MetaVal :=
  match epoch with Some e => MInt e | None => MNone end.

(** [d[key]] *)
Definition dict_get (key : string) (d : gmap string R) : M R :=
  match d !! key with
  | Some v => ret v
  | None => raise (KeyError key)
  end.

(** [on_stage_end(self, stage, stage_loss, epoch)] *)
Definition on_stage_end (stage : Stage) (stage_loss : R) (epoch : option Z) : M unit :=
  (* Compute/store important stats *)
  let stage_stats : gmap string R := {[ "loss" := stage_loss ]} in
  do stage_stats <-
    (if Stage_eqb stage TRAIN then
       do _ <- modify (set_train_stats (Some stage_stats));
       ret stage_stats
     else
       do cer <- getattr "cer_metric" cer_metric;
       let stage_stats := <[ "CER" := summarize cer "error_rate" ]> stage_stats in
       do wer <- getattr "wer_metric" wer_metric;
       ret (<[ "WER" := summarize wer "error_rate" ]> stage_stats));
  (* Perform end-of-iteration things, like annealing, logging, etc. *)
  if Stage_eqb stage VALID then
    do self <- get;
    do loss <- dict_get "loss" stage_stats;
    let '(old_lr_model, new_lr_model, sched) :=
      anneal (lr_annealing_model self) loss in
    do _ <- modify (set_lr_annealing_model sched);
    do self <- get;
    do loss <- dict_get "loss" stage_stats;
    let '(old_lr_wav2vec, new_lr_wav2vec, sched) :=
      anneal (lr_annealing_wav2vec self) loss in
    do _ <- modify (set_lr_annealing_wav2vec sched);
    do o <- getattr "model_optimizer" model_optimizer;
    do _ <- modify (set_model_optimizer
              (Some (Build_OptimizerObj (over o)
                       (update_learning_rate (opt o) new_lr_model))));
    do o <- getattr "wav2vec_optimizer" wav2vec_optimizer;
    do _ <- modify (set_wav2vec_optimizer
              (Some (Build_OptimizerObj (over o)
                       (update_learning_rate (opt o) new_lr_wav2vec))));
    do ts <- getattr "train_stats" train_stats;
    do _ <- modify (fun s => set_train_logger
              (train_logger s ++
                 [Build_LogRecord
                    [("epoch", epoch_val epoch);
                     ("lr_model", MFloat old_lr_model);
                     ("lr_wav2vec", MFloat old_lr_wav2vec)]
                    (Some ts) (Some stage_stats) None]) s);
    do ck <- getattr "checkpointer" checkpointer;
    do wer <- dict_get "WER" stage_stats;
    modify (set_checkpointer
              (Some (Build_Checkpointer (recoverables ck)
                       (saved ck ++
                          [Build_SaveRequest {[ "WER" := wer ]} ["WER"]]))))
  else if Stage_eqb stage TEST then
    do self <- get;
    do _ <- modify (fun s => set_train_logger
              (train_logger s ++
                 [Build_LogRecord
                    [("Epoch loaded", MInt (epoch_counter_current (hparams self)))]
                    None None (Some stage_stats)]) s);
    do path <- getattr "wer_file" wer_file;
    do wer <- getattr "wer_metric" wer_metric;
    modify (fun s => set_files (<[ path := write_stats wer ]> (files s)) s)
  else ret tt.

(** [init_optimizers(self)] *)
Definition init_optimizers : M unit :=
  do self <- get;
  do _ <- modify (set_wav2vec_optimizer
            (Some (Build_OptimizerObj wav2vec2_parameters
                     (wav2vec_opt_class (hparams self)))));
  do _ <- modify (set_model_optimizer
            (Some (Build_OptimizerObj model_parameters
                     (model_opt_class (hparams self)))));
  do self <- get;
  match checkpointer self with
  | Some ck =>
      let ck := Build_Checkpointer
                  (<[ "wav2vec_opt" := ref_wav2vec_optimizer ]> (recoverables ck))
                  (saved ck) in
      let ck := Build_Checkpointer
                  (<[ "modelopt" := ref_model_optimizer ]> (recoverables ck))
                  (saved ck) in
      modify (set_checkpointer (Some ck))
  | None => ret tt
  end.

(** ** The dataset pipeline of [dataio_prepare] *)

(** [dataset.map(f)]: [f] is applied to the elements as they come; an
    exception raised by [f] ends the iteration. *)
Fixpoint map_until {A B} (f : A -> Res B) (l : list A) : list B * option exn :=
  match l with
  | [] => ([], None)
  | x :: l' =>
      match f x with
      | Ok y => let '(ys, e) := map_until f l' in (y :: ys, e)
      | Raise e => ([], Some e)
      end
  end.

Definition map_yielded {A B} (f : A -> Res B) (y : Yielded A) : Yielded B :=
  let '(ys, e) := map_until f (items y) in
  {| items := ys;
     ended_by := match e with Some e => Some e | None => ended_by y end |}.

Definition ds_map {A B} (f : A -> Res B) (d : Dataset A) : Dataset B :=
  fun sh => map_yielded f (d sh).

(** The loop of webdataset's [batched(batchsize, collation_fn, partial)]:
    [batch] is the list being filled.  A full list is collated and yielded
    when the next sample arrives; after the last sample the list is
    yielded if it is full or [partial] is set.  [flush] is false when the
    source ended by an exception, which leaves the loop at once. *)
Fixpoint batched_loop {A B} (batchsize : Z) (collation_fn : list A -> B)
  (partial flush : bool) (data : list A) (batch : list A) : list B :=
  match data with
  | [] =>
      if negb flush then []
      else if Z.of_nat (List.length batch) =? 0 then []
      else if (Z.of_nat (List.length batch) =? batchsize) || partial
           then [collation_fn batch]
           else []
  | sample :: data' =>
      if batchsize <=? Z.of_nat (List.length batch)
      then collation_fn batch
             :: batched_loop batchsize collation_fn partial flush data' [sample]
      else batched_loop batchsize collation_fn partial flush data' (batch ++ [sample])
  end.

Definition batch_yielded {A B} (batchsize : Z) (collation_fn : list A -> B)
  (partial : bool) (y : Yielded A) : Yielded B :=
  {| items := batched_loop batchsize collation_fn partial
                (bool_decide (ended_by y = None)) (items y) [];
     ended_by := ended_by y |}.

Definition batched {A B} (batchsize : Z) (collation_fn : list A -> B)
  (partial : bool) (d : Dataset A) : Dataset B :=
  fun sh => batch_yielded batchsize collation_fn partial (d sh).

(** [a + b] on datasets: the elements of [a], then those of [b]. *)
Definition chain {A} (a b : Dataset A) : Dataset A :=
  fun sh =>
    match ended_by (a sh) with
    | Some e => a sh
    | None => {| items := items (a sh) ++ items (b sh); ended_by := ended_by (b sh) |}
    end.

(** [shard_extractor(input_dict)], closed over [label_encoder]. *)
Definition shard_extractor (label_encoder : Encoder) (input_dict : RawRecord)
  : Res Item :=
  let f_IO := raw_wav input_dict in
  let '(sig, fs) := torchaudio_load f_IO in
  let sig := squeeze (transpose sig 0 1) 1 in
  match Py.decode_utf8_list (raw_text input_dict) with
  | Raise e => Raise e
  | Ok char_list =>
      let tokens_list := encode_sequence label_encoder char_list in
      let tokens := tokens_list in
      Ok {| item_id := raw_key input_dict; item_sig := sig; item_tokens := tokens |}
  end.

(** The keyword arguments of the call [label_encoder.load_or_create(...)]:
    [path] and [special_labels], nothing else. *)
Definition load_or_create_kwargs (hparams : HParams) : list (string * PyArg) :=
  let lab_enc_file := Py.os_path_join (save_folder hparams) "label_encoder.txt" in
  let special_labels : gmap string Z := {[ "blank_label" := blank_index hparams ]} in
  [("path", PStr lab_enc_file); ("special_labels", PDict special_labels)].

(** [dataio_prepare(hparams)]; [fs] are the text files on disk. *)
Definition dataio_prepare (hparams : HParams) (fs : gmap string string)
  : (Dataset Batch * Dataset Batch * Dataset Batch * Encoder) * gmap string string :=
  let train_data :=
    shuffle (shuffle_shards hparams)
      (WebDataset (glob (train_shards hparams)) (shard_cache_dir hparams)) in
  let valid_data :=
    shuffle (shuffle_shards hparams)
      (WebDataset (glob (valid_shards hparams)) (shard_cache_dir hparams)) in
  let test_data :=
    shuffle (shuffle_shards hparams)
      (WebDataset (glob (test_shards hparams)) (shard_cache_dir hparams)) in
  let label_encoder := CategoricalEncoder in
  (* built, and passed to nothing *)
  let datasets := [chain (chain train_data valid_data) test_data] in
  let '(label_encoder, fs) :=
    load_or_create label_encoder (load_or_create_kwargs hparams) fs in
  let train_data :=
    batched (batch_size hparams) PaddedBatch false
      (ds_map (shard_extractor label_encoder) train_data) in
  let valid_data :=
    batched (batch_size hparams) PaddedBatch false
      (ds_map (shard_extractor label_encoder) valid_data) in
  let test_data :=
    batched (test_batch_size hparams) PaddedBatch false
      (ds_map (shard_extractor label_encoder) test_data) in
  ((train_data, valid_data, test_data, label_encoder), fs).

(** The lists that reach [collation_fn] in [batched]: the same loop with
    the identity for collation. *)
Definition groups {A} (batchsize : Z) (partial flush : bool) (data : list A)
  : list (list A) :=
  batched_loop batchsize (fun l => l) partial flush data [].

(** ** The framework's loop over one non-training stage

    [sb.Brain] drives the callbacks; a validation stage of [fit] and the
    test stage of [evaluate] call [on_stage_start], then [evaluate_batch]
    on every batch, then [on_stage_end] with the average loss. *)
Definition evaluate_stage (stage : Stage) (epoch : option Z) (batches : list Batch)
  : M unit :=
  do _ <- on_stage_start stage epoch;
  do losses <- mapM (fun batch => evaluate_batch batch stage) batches;
  on_stage_end stage (average losses) epoch.

(** The testing part of [__main__]: [wer_file] is assigned, then
    [asr_brain.evaluate] runs the test stage. *)
Definition main_testing (test_batches : list Batch) : M unit :=
  do self <- get;
  do _ <- modify (set_wer_file
            (Some (Py.os_path_join (output_folder (hparams self)) "wer_test.txt")));
  evaluate_stage TEST None test_batches.

(** ** Vocabulary of the statements *)

(** The network of [compute_forward] on given waveforms: encoder, linear
    layer, log-softmax, with the weights of [self]. *)
Definition forward_pass (self : Brain) (wavs : list Tensor) : Tensor :=
  log_softmax (hparams self)
    (ctc_lin (modules self) (weights self)
       (enc (modules self) (weights self)
          (wav2vec2 (modules self) (weights self) wavs))).

(** [hparams.augmentation] where there is one. *)
Definition augmented (self : Brain) (wavs : list Tensor) (wav_lens : list R)
  : list Tensor :=
  match augmentation (hparams self) with
  | Some augmentation => augmentation wavs wav_lens
  | None => wavs
  end.

(** The words a token sequence decodes to. *)
Definition words_of (tok : Encoder) (seq : list Z) : list string :=
  Py.split_space (Py.join_empty (decode_ndim tok seq)).

Definition Entry : Type := list string * list (list string) * list (list string).

(** What one batch of a non-training stage contributes to the error-rate
    statistics: the ids, the words decoded greedily from the network's
    output on the batch, and the words of the unpadded targets. *)
Definition batch_entry (self : Brain) (tok : Encoder) (batch : Batch) : Entry :=
  let p_ctc := forward_pass self (fst (b_sig batch)) in
  let p_tokens :=
    ctc_greedy_decode p_ctc (snd (b_sig batch)) (blank_index (hparams self)) in
  (b_id batch,
   map (words_of tok) p_tokens,
   map (fun '(utt_tokens, utt_len) => words_of tok (unpad utt_tokens utt_len))
     (combine (fst (b_tokens batch)) (snd (b_tokens batch)))).

Definition append_entry (m : Metric) (e : Entry) : Metric :=
  metric_append m (fst (fst e)) (snd (fst e)) (snd e).

(** A metric after the given entries were appended to it, in order. *)
Definition accumulate (m : Metric) (entries : list Entry) : Metric :=
  fold_left append_entry entries m.

(** The loss of a validation or test batch. *)
Definition eval_loss (self : Brain) (batch : Batch) : Tensor :=
  detach (ctc_cost (hparams self) (forward_pass self (fst (b_sig batch)))
            (fst (b_tokens batch)) (snd (b_sig batch)) (snd (b_tokens batch))).


(** The outcome of [init_optimizers] in which both optimizers are among
    the recoverables of the brain's checkpointer. *)
Definition registers_both (r : Res (unit * Brain)) : Prop :=
  exists self' ck,
    r = Ok (tt, self')
    /\ checkpointer self' = Some ck
    /\ recoverables ck !! "wav2vec_opt" = Some ref_wav2vec_optimizer
    /\ recoverables ck !! "modelopt" = Some ref_model_optimizer.

(** The raw records of one split: the shards matched by the pattern, read
    through the cache, after [.shuffle(hparams["shuffle_shards"])]. *)
Definition split_source (hparams : HParams) (pattern : string) : Dataset RawRecord :=
  shuffle (shuffle_shards hparams)
    (WebDataset (glob pattern) (shard_cache_dir hparams)).

(** The batches [out] are made of full groups of [n] of the elements
    [its], taken in order; the elements left over reach no batch, and
    they are fewer than [n] when the iteration ran to its end. *)
Definition full_batches (n : Z) (its : Yielded Item) (out : Yielded Batch) : Prop :=
  exists (gs : list (list Item)) (rest : list Item),
    items out = map PaddedBatch gs
    /\ Forall (fun g => Z.of_nat (List.length g) = n) gs
    /\ items its = concat gs ++ rest
    /\ (ended_by its = None -> Z.of_nat (List.length rest) < n).

End Recipe.

(** ** A small executable instance of the interface

    Numbers are integers, a tensor is a list of integers, a metric is the
    list of what was appended to it, an encoder is its label-to-index
    table, and the shards are given by the records behind each url. *)

Module Toy.

#[export] Instance carriers : Carriers := {|
  R := Z;
  Tensor := list Z;
  W := Z;
  G := Z;
  Optimizer := Z;
  Sched := Z;
  Metric := list Entry;
  Encoder := gmap string Z;
  Shards := string -> list RawRecord
|}.

Definition char_of (i : Z) : string :=
  String (ascii_of_nat (Z.to_nat i)) EmptyString.

Definition kw_path (kw : list (string * PyArg)) : string :=
  match kw with
  | (_, PStr p) :: _ => p
  | _ => ""
  end.

Definition kw_special (kw : list (string * PyArg)) : gmap string Z :=
  match kw with
  | _ :: (_, PDict d) :: _ => d
  | _ => ∅
  end.

Definition padded (its : list Item) : Batch :=
  {| b_id := map item_id its;
     b_sig := (map item_sig its, map (fun _ => 100) its);
     b_tokens := (map item_tokens its, map (fun _ => 100) its) |}.

#[export] Instance framework : Framework := {|
  backward := fun loss g grp => g grp + Z.of_nat (List.length loss);
  zero_grad := fun _ => 0;
  step := fun o w g => (o, w - o * g);
  detach := fun t => t;
  int_mul := fun r n => r * Z.of_nat n / 100;
  torchaudio_load := fun bytes => (map Py.octet (list_ascii_of_string bytes), 16000);
  transpose := fun t _ _ => t;
  squeeze := fun t _ => t;
  ctc_greedy_decode := fun p lens blank =>
    map (fun _ => filter (fun x => negb (x =? blank)) p) lens;
  check_gradients := fun loss g => (forallb (fun x => x <? 1000) loss, g);
  update_learning_rate := fun _ lr => lr;
  anneal := fun s loss => (s, s / 2, s / 2);
  metric_append := fun m ids p t => m ++ [(ids, p, t)];
  summarize := fun m _ => Z.of_nat (List.length m);
  write_stats := fun m => String.concat "," (concat (map (fun e => fst (fst e)) m));
  CategoricalEncoder := ∅;
  load_or_create := fun e kw fs =>
    (kw_special kw ∪ e, <[ kw_path kw := "saved" ]> fs);
  encode_sequence := fun e chars =>
    map (fun c => match e !! c with Some i => i | None => -1 end) chars;
  decode_ndim := fun _ ids => map char_of ids;
  PaddedBatch := padded;
  average := fun losses => Z.of_nat (List.length losses);
  glob := fun pattern => [pattern];
  WebDataset := fun urls _ sh =>
    {| items := concat (map sh urls); ended_by := None |};
  shuffle := fun _ d sh =>
    {| items := rev (items (d sh)); ended_by := ended_by (d sh) |}
|}.

Definition the_modules (corrupt : bool) : Modules :=
  {| wav2vec2 := fun w wavs => map (fun x => x + w wav2vec2_parameters) (concat wavs);
     enc := fun w t => map (fun x => x + w model_parameters) t;
     ctc_lin := fun w t => t;
     env_corrupt := if corrupt then Some (fun wavs _ => map (map Z.succ) wavs) else None |}.

Definition the_hparams : HParams :=
  {| augmentation := Some (fun wavs _ => map (map (Z.mul 2)) wavs);
     log_softmax := fun t => t;
     ctc_cost := fun p toks _ _ => p ++ concat toks;
     blank_index := 0;
     cer_computer := [];
     error_rate_computer := [];
     wav2vec_opt_class := 1;
     model_opt_class := 10;
     epoch_counter_current := 3;
     train_shards := "train-*.tar";
     valid_shards := "dev-*.tar";
     test_shards := "test-*.tar";
     shard_cache_dir := "cache";
     shuffle_shards := 100;
     save_folder := "results/save";
     output_folder := "results";
     batch_size := 2;
     test_batch_size := 2 |}.

Definition old_entry : Entry := (["old"], [["x"]], [["y"]]).

(** A brain as [__main__] leaves it after construction, with or without a
    checkpointer, with stale metrics from an earlier stage. *)
Definition the_brain (corrupt : bool) (ck : option Checkpointer) : Brain :=
  {| modules := the_modules corrupt;
     hparams := the_hparams;
     checkpointer := ck;
     tokenizer := Some ∅;
     cer_metric := Some [old_entry];
     wer_metric := Some [old_entry];
     train_stats := Some {[ "loss" := 7 ]};
     wav2vec_optimizer := Some {| over := wav2vec2_parameters; opt := 1 |};
     model_optimizer := Some {| over := model_parameters; opt := 10 |};
     weights := fun _ => 5;
     grads := fun _ => 0;
     lr_annealing_model := 8;
     lr_annealing_wav2vec := 4;
     train_logger := [];
     wer_file := Some "results/wer_test.txt";
     files := ∅ |}.

Definition empty_ck : Checkpointer := {| recoverables := ∅; saved := [] |}.

Definition a_batch : Batch :=
  {| b_id := ["utt1"; "utt2"];
     b_sig := ([[1; 2]; [3; 4]], [100; 50]);
     b_tokens := ([[104; 105; 32; 97]; [97; 32; 98; 0]], [100; 75]) |}.

(** A batch whose loss the toy gradient check refuses. *)
Definition a_bad_batch : Batch :=
  {| b_id := ["utt3"];
     b_sig := ([[5000]], [100]);
     b_tokens := ([[97]], [100]) |}.

Definition rec_of (key text : string) : RawRecord :=
  {| raw_key := key; raw_wav := "ab"; raw_text := text |}.

Definition the_shards (url : string) : list RawRecord :=
  if String.eqb url "train-*.tar"
  then [rec_of "k1" "a"; rec_of "k2" "b"; rec_of "k3" "c"; rec_of "k4" "d"; rec_of "k5" "e"]
  else if String.eqb url "dev-*.tar" then [rec_of "k6" "f"; rec_of "k7" "g"]
  else [rec_of "k8" "h"; rec_of "k9" "i"; rec_of "k10" "j"].

End Toy.

(** ** Vocabulary of the further properties *)

(** An attribute that has been assigned. *)
Definition present {A} (o : option A) : bool :=
  match o with Some _ => true | None => false end.

(** A string with a space in it. *)
Fixpoint has_space (s : string) : bool :=
  match s with
  | EmptyString => false
  | String c s' => Ascii.eqb c " "%char || has_space s'
  end.



(** * Properties *)

(** ** The Python built-ins on examples *)

Example split_space_ex :
  Py.split_space "ab  c " = ["ab"; ""; "c"; ""].
Proof. reflexivity. Qed.

Example split_space_empty : Py.split_space "" = [""].
Proof. reflexivity. Qed.

Example slice_to_ex :
  Py.slice_to 2 [1; 2; 3] = [1; 2] /\ Py.slice_to 7 [1; 2; 3] = [1; 2; 3]
  /\ Py.slice_to (-1) [1; 2; 3] = [1; 2] /\ Py.slice_to (-5) [1; 2; 3] = [].
Proof. repeat split. Qed.

Example os_path_join_ex :
  Py.os_path_join "results/save" "label_encoder.txt" = "results/save/label_encoder.txt"
  /\ Py.os_path_join "out/" "wer_test.txt" = "out/wer_test.txt"
  /\ Py.os_path_join "" "wer_test.txt" = "wer_test.txt".
Proof. repeat split. Qed.

Example decode_utf8_ex :
  Py.decode_utf8_list
    (String "h" (String (ascii_of_nat 195) (String (ascii_of_nat 169) "y")))
  = Ok ["h"; String (ascii_of_nat 195) (String (ascii_of_nat 169) ""); "y"].
Proof. vm_compute. reflexivity. Qed.

Example decode_utf8_overlong :
  returns (Py.decode_utf8_list (String (ascii_of_nat 192) (String (ascii_of_nat 128) "")))
  = false.
Proof. vm_compute. reflexivity. Qed.

Lemma append_empty_r (s : string) : (s ++ "")%string = s.
Proof.
  induction s as [|c s IH]; [reflexivity |].
  change (String c (s ++ "")%string = String c s). now rewrite IH.
Qed.

Lemma concat_empty_cons (x : string) (xs : list string) :
  String.concat "" (x :: xs) = (x ++ String.concat "" xs)%string.
Proof.
  destruct xs as [|y ys]; cbn [String.concat];
    [symmetry; apply append_empty_r | reflexivity].
Qed.

Ltac utf8_step IH E :=
  intros [= <-]; apply IH in E; rewrite concat_empty_cons, E; reflexivity.

(** The characters of a decoded text, put together again, are the octets
    that were decoded. *)
Lemma utf8_chars_concat fuel :
  forall pos s cs, Py.utf8_chars fuel pos s = Ok cs -> String.concat "" cs = s.
Proof.
  induction fuel as [|fuel IH]; intros pos s cs; simpl.
  - destruct s; [intros [= <-]; reflexivity | discriminate].
  - destruct s as [|c0 r0]; [intros [= <-]; reflexivity |].
    destruct (Py.lead c0) as [[[[|[|[|[|n]]]] lo] hi]|]; try discriminate.
    + destruct r0 as [|c1 [|c2 [|c3 r3]]]; try discriminate.
      destruct (_ && _ && _); [|discriminate].
      destruct (Py.utf8_chars fuel _ r3) eqn:E; [|discriminate].
      utf8_step IH E.
    + destruct (Py.utf8_chars fuel _ r0) eqn:E; [|discriminate].
      utf8_step IH E.
    + destruct r0 as [|c1 r1]; try discriminate.
      destruct (Py.in_range _ _ _); [|discriminate].
      destruct (Py.utf8_chars fuel _ r1) eqn:E; [|discriminate].
      utf8_step IH E.
    + destruct r0 as [|c1 [|c2 r2]]; try discriminate.
      destruct (_ && _); [|discriminate].
      destruct (Py.utf8_chars fuel _ r2) eqn:E; [|discriminate].
      utf8_step IH E.
    + destruct r0 as [|c1 [|c2 [|c3 r3]]]; try discriminate.
      destruct (_ && _ && _); [|discriminate].
      destruct (Py.utf8_chars fuel _ r3) eqn:E; [|discriminate].
      utf8_step IH E.
Qed.

(** ** The callbacks *)

Section Properties.
Context {C : Carriers} {F : Framework}.

Lemma Stage_eqb_eq (a b : Stage) : Stage_eqb a b = true <-> a = b.
Proof. destruct a, b; simpl; split; congruence. Qed.

Lemma not_TRAIN (stage : Stage) : stage <> TRAIN -> Stage_eqb stage TRAIN = false.
Proof. destruct stage; simpl; congruence. Qed.

(** A comprehension whose body only reads [self] leaves it as it was. *)
Lemma mapM_pure {A B} (f : A -> M B) (g : A -> B) (l : list A) (s : Brain) :
  (forall x, f x s = Ok (g x, s)) -> mapM f l s = Ok (map g l, s).
Proof.
  intros Hf. induction l as [|x l IH]; simpl; [reflexivity |].
  unfold bind. rewrite Hf, IH. reflexivity.
Qed.

Lemma decode_words_ok (tok : Encoder) (s : Brain) (seq : list Z) :
  tokenizer s = Some tok -> decode_words seq s = Ok (words_of tok seq, s).
Proof.
  intros Ht. unfold decode_words, bind, getattr. rewrite Ht. reflexivity.
Qed.

(** Outside training the batch goes through the network as it is, and the
    output is decoded greedily. *)
Lemma compute_forward_eval (self : Brain) (batch : Batch) (stage : Stage) :
  stage <> TRAIN ->
  compute_forward self batch stage
  = (forward_pass self (fst (b_sig batch)), snd (b_sig batch),
     Some (ctc_greedy_decode (forward_pass self (fst (b_sig batch)))
             (snd (b_sig batch)) (blank_index (hparams self)))).
Proof.
  intros Hs. unfold compute_forward, forward_pass.
  destruct (b_sig batch) as [wavs wav_lens]. rewrite (not_TRAIN _ Hs). reflexivity.
Qed.

(** In training the noisy copy is appended when there is an [env_corrupt],
    the augmentation is applied when there is one, nothing is decoded. *)
Lemma compute_forward_train (self : Brain) (batch : Batch) :
  compute_forward self batch TRAIN
  = match env_corrupt (modules self) with
    | Some f =>
        let wavs := fst (b_sig batch) ++ f (fst (b_sig batch)) (snd (b_sig batch)) in
        let wav_lens := snd (b_sig batch) ++ snd (b_sig batch) in
        (forward_pass self (augmented self wavs wav_lens), wav_lens, None)
    | None =>
        (forward_pass self (augmented self (fst (b_sig batch)) (snd (b_sig batch))),
         snd (b_sig batch), None)
    end.
Proof.
  unfold compute_forward, forward_pass, augmented.
  destruct (b_sig batch) as [wavs wav_lens]. simpl.
  destruct (env_corrupt (modules self)), (augmentation (hparams self)); reflexivity.
Qed.

(** In training [compute_objectives] reads no optional attribute and
    leaves [self] alone; the targets are doubled exactly when there is an
    [env_corrupt]. *)
Lemma compute_objectives_train (self : Brain) (batch : Batch)
  (p_ctc : Tensor) (wav_lens : list R) (p_tokens : option (list (list Z))) :
  compute_objectives (p_ctc, wav_lens, p_tokens) batch TRAIN self
  = Ok (match env_corrupt (modules self) with
        | Some _ =>
            ctc_cost (hparams self) p_ctc
              (fst (b_tokens batch) ++ fst (b_tokens batch)) wav_lens
              (snd (b_tokens batch) ++ snd (b_tokens batch))
        | None =>
            ctc_cost (hparams self) p_ctc (fst (b_tokens batch)) wav_lens
              (snd (b_tokens batch))
        end, self).
Proof.
  unfold compute_objectives. destruct (b_tokens batch) as [tokens tokens_lens].
  unfold bind, get. simpl.
  destruct (env_corrupt (modules self)); reflexivity.
Qed.

(** Outside training, with a tokenizer and both metrics in place,
    [compute_objectives] returns the loss on the targets as they are and
    appends the same entry to both metrics. *)
Lemma compute_objectives_eval (self : Brain) (batch : Batch) (stage : Stage)
  (p_ctc : Tensor) (wav_lens : list R) (seqs : list (list Z))
  (tok : Encoder) (wer cer : Metric) :
  stage <> TRAIN ->
  tokenizer self = Some tok ->
  wer_metric self = Some wer ->
  cer_metric self = Some cer ->
  let predicted_words := map (words_of tok) seqs in
  let target_words :=
    map (fun '(utt_tokens, utt_len) => words_of tok (unpad utt_tokens utt_len))
      (combine (fst (b_tokens batch)) (snd (b_tokens batch))) in
  compute_objectives (p_ctc, wav_lens, Some seqs) batch stage self
  = Ok (ctc_cost (hparams self) p_ctc (fst (b_tokens batch)) wav_lens
          (snd (b_tokens batch)),
        set_cer_metric
          (Some (metric_append cer (b_id batch) predicted_words target_words))
          (set_wer_metric
             (Some (metric_append wer (b_id batch) predicted_words target_words))
             self)).
Proof.
  intros Hs Ht Hw Hc pw tw. subst pw tw.
  unfold compute_objectives. destruct (b_tokens batch) as [tokens tokens_lens].
  unfold bind at 1. unfold get at 1. cbv iota beta.
  rewrite (not_TRAIN _ Hs).
  destruct (env_corrupt (modules self)); simpl;
    unfold bind;
    rewrite (mapM_pure decode_words (words_of tok) seqs self
               (fun x => decode_words_ok tok self x Ht));
    rewrite (mapM_pure
               (fun '(utt_tokens, utt_len) => decode_words (unpad utt_tokens utt_len))
               (fun '(utt_tokens, utt_len) => words_of tok (unpad utt_tokens utt_len))
               (combine tokens tokens_lens) self)
      by (intros [a b]; apply decode_words_ok; exact Ht);
    unfold getattr, modify; rewrite Hw; simpl; rewrite Hc; reflexivity.
Qed.

(** C3.  Noise concatenation and augmentation happen in training only.
    Outside training the network sees the waveforms of the batch as they
    are and the loss is taken on the targets as they are.  In training
    with an [env_corrupt] module the noisy copy is appended to the
    waveforms, the lengths are doubled, the augmentation (where there is
    one) is applied to the doubled batch, and [compute_objectives] doubles
    the targets and their lengths to match; in training without
    [env_corrupt] nothing is doubled. *)
Theorem augmentation_only_in_training (self : Brain) (batch : Batch) :
  let wavs := fst (b_sig batch) in
  let wav_lens := snd (b_sig batch) in
  let tokens := fst (b_tokens batch) in
  let tokens_lens := snd (b_tokens batch) in
  (forall stage, stage <> TRAIN ->
     fst (compute_forward self batch stage) = (forward_pass self wavs, wav_lens)
     /\ forall tok wer cer,
          tokenizer self = Some tok ->
          wer_metric self = Some wer ->
          cer_metric self = Some cer ->
          exists self',
            compute_objectives (compute_forward self batch stage) batch stage self
            = Ok (ctc_cost (hparams self) (forward_pass self wavs) tokens wav_lens
                    tokens_lens, self'))
  /\ (forall corrupt, env_corrupt (modules self) = Some corrupt ->
        let noisy := wavs ++ corrupt wavs wav_lens in
        let p_ctc :=
          forward_pass self (augmented self noisy (wav_lens ++ wav_lens)) in
        compute_forward self batch TRAIN = (p_ctc, wav_lens ++ wav_lens, None)
        /\ List.length (wav_lens ++ wav_lens) = (2 * List.length wav_lens)%nat
        /\ List.length (tokens ++ tokens) = (2 * List.length tokens)%nat
        /\ compute_objectives (compute_forward self batch TRAIN) batch TRAIN self
           = Ok (ctc_cost (hparams self) p_ctc (tokens ++ tokens)
                   (wav_lens ++ wav_lens) (tokens_lens ++ tokens_lens), self))
  /\ (env_corrupt (modules self) = None ->
        let p_ctc := forward_pass self (augmented self wavs wav_lens) in
        compute_forward self batch TRAIN = (p_ctc, wav_lens, None)
        /\ compute_objectives (compute_forward self batch TRAIN) batch TRAIN self
           = Ok (ctc_cost (hparams self) p_ctc tokens wav_lens tokens_lens, self)).
Proof.
  cbv zeta. split; [|split].
  - intros stage Hs. rewrite (compute_forward_eval _ _ _ Hs). split; [reflexivity |].
    intros tok wer cer Ht Hw Hc.
    rewrite (compute_objectives_eval _ _ _ _ _ _ tok wer cer Hs Ht Hw Hc).
    eexists. reflexivity.
  - intros corrupt Hc. rewrite compute_forward_train, Hc. cbv zeta.
    rewrite compute_objectives_train, Hc.
    rewrite !List.length_app. repeat split; lia.
  - intros Hc. rewrite compute_forward_train, Hc.
    rewrite compute_objectives_train, Hc. split; reflexivity.
Qed.


(** C8.  [fit_batch], with the two optimizers as [init_optimizers] builds
    them, returns the detached training loss.  The optimizers step only
    when [check_gradients] accepts the loss: when it refuses, the weights
    and the optimizers after the batch are those before it; when it
    accepts, each optimizer has updated the weights it was built over from
    the checked gradients.  In both cases every gradient is zeroed when
    the batch is done. *)
Theorem optimizer_steps_only_on_good_gradients
  (self : Brain) (batch : Batch) (o1 o2 : Optimizer) :
  wav2vec_optimizer self = Some {| over := wav2vec2_parameters; opt := o1 |} ->
  model_optimizer self = Some {| over := model_parameters; opt := o2 |} ->
  exists loss self',
    compute_objectives (compute_forward self batch TRAIN) batch TRAIN self
    = Ok (loss, self)
    /\ fit_batch batch self = Ok (detach loss, self')
    /\ let checked := check_gradients loss (backward loss (grads self)) in
       (forall g, grads self' g = zero_grad (snd checked g))
       /\ (fst checked = false ->
             weights self' = weights self
             /\ wav2vec_optimizer self' = wav2vec_optimizer self
             /\ model_optimizer self' = model_optimizer self)
       /\ (fst checked = true ->
             let s1 := step o1 (weights self wav2vec2_parameters)
                         (snd checked wav2vec2_parameters) in
             let s2 := step o2 (weights self model_parameters)
                         (snd checked model_parameters) in
             weights self' wav2vec2_parameters = snd s1
             /\ weights self' model_parameters = snd s2
             /\ wav2vec_optimizer self'
                = Some {| over := wav2vec2_parameters; opt := fst s1 |}
             /\ model_optimizer self'
                = Some {| over := model_parameters; opt := fst s2 |}).
Proof.
  intros H1 H2.
  destruct (compute_forward self batch TRAIN) as [[p_ctc wav_lens] p_tokens] eqn:Hf.
  pose proof (compute_objectives_train self batch p_ctc wav_lens p_tokens) as Hobj.
  set (loss := match env_corrupt (modules self) with
               | Some _ => _ | None => _ end) in Hobj.
  exists loss.
  unfold fit_batch. unfold bind at 1. unfold get at 1. cbv iota beta.
  rewrite Hf. unfold bind at 1. rewrite Hobj.
  unfold bind, get, modify, getattr. cbn [grads set_grads].
  destruct (check_gradients loss (backward loss (grads self))) as [ok clipped].
  destruct ok; cbn; rewrite H1; cbn.
  - unfold optimizer_step. cbn.
    destruct (step o1 (weights self wav2vec2_parameters) (clipped wav2vec2_parameters))
      as [o1' w1].
    cbn. rewrite H2. cbn.
    destruct (step o2 (weights self model_parameters) (clipped model_parameters))
      as [o2' w2].
    cbn. eexists. split; [reflexivity |]. split; [reflexivity |].
    split; [|split].
    + intros [|]; reflexivity.
    + discriminate.
    + intros _. repeat split; reflexivity.
  - rewrite H2. cbn. eexists. split; [reflexivity |]. split; [reflexivity |].
    split; [|split].
    + intros [|]; reflexivity.
    + intros _. repeat split; assumption.
    + discriminate.
Qed.

(** The statistics of a validation or test stage hold the loss and the
    word error rate under their keys. *)
Lemma stage_stats_loss (l c w : R) :
  (<[ "WER" := w ]> (<[ "CER" := c ]> ({[ "loss" := l ]} : gmap string R)))
    !! "loss" = Some l.
Proof.
  rewrite lookup_insert_ne by done. rewrite lookup_insert_ne by done.
  apply lookup_singleton_eq.
Qed.

Lemma stage_stats_WER (l c w : R) :
  (<[ "WER" := w ]> (<[ "CER" := c ]> ({[ "loss" := l ]} : gmap string R)))
    !! "WER" = Some w.
Proof. apply lookup_insert_eq. Qed.

(** C2.  At the end of a validation stage (metrics created by the stage
    start, training statistics stored by the end of the training stage,
    both optimizers built, a checkpointer given) [on_stage_end] returns
    and has: called both schedulers on the stage loss; written the new
    learning rate of each scheduler into the optimizer it belongs to;
    logged the old learning rates with the statistics; and asked the
    checkpointer for one more [save_and_keep_only], whose meta is the
    word error rate of the stage under the key WER and whose [min_keys]
    is that key alone. *)
Theorem validation_anneals_and_checkpoints
  (self : Brain) (stage_loss : R) (epoch : option Z)
  (cer wer : Metric) (ts : gmap string R) (om ow : OptimizerObj) (ck : Checkpointer) :
  cer_metric self = Some cer ->
  wer_metric self = Some wer ->
  train_stats self = Some ts ->
  model_optimizer self = Some om ->
  wav2vec_optimizer self = Some ow ->
  checkpointer self = Some ck ->
  let am := anneal (lr_annealing_model self) stage_loss in
  let aw := anneal (lr_annealing_wav2vec self) stage_loss in
  let stage_stats : gmap string R :=
    <[ "WER" := summarize wer "error_rate" ]>
      (<[ "CER" := summarize cer "error_rate" ]> {[ "loss" := stage_loss ]}) in
  exists self',
    on_stage_end VALID stage_loss epoch self = Ok (tt, self')
    /\ lr_annealing_model self' = snd am
    /\ lr_annealing_wav2vec self' = snd aw
    /\ model_optimizer self'
       = Some {| over := over om;
                 opt := update_learning_rate (opt om) (snd (fst am)) |}
    /\ wav2vec_optimizer self'
       = Some {| over := over ow;
                 opt := update_learning_rate (opt ow) (snd (fst aw)) |}
    /\ train_logger self'
       = train_logger self ++
           [ {| stats_meta := [("epoch", epoch_val epoch);
                               ("lr_model", MFloat (fst (fst am)));
                               ("lr_wav2vec", MFloat (fst (fst aw)))];
                log_train_stats := Some ts;
                log_valid_stats := Some stage_stats;
                log_test_stats := None |} ]
    /\ checkpointer self'
       = Some {| recoverables := recoverables ck;
                 saved := saved ck ++
                   [ {| meta := {[ "WER" := summarize wer "error_rate" ]};
                        min_keys := ["WER"] |} ] |}
    /\ weights self' = weights self
    /\ files self' = files self.
Proof.
  intros Hc Hw Hts Hom How Hck am aw stats. subst am aw stats.
  unfold on_stage_end. cbn [Stage_eqb].
  unfold bind, get, modify, getattr, dict_get, ret. rewrite Hc, Hw.
  cbn -[insert lookup singletonM].
  rewrite !stage_stats_loss.
  destruct (anneal (lr_annealing_model self) stage_loss) as [[old_m new_m] sm].
  cbn -[insert lookup singletonM].
  destruct (anneal (lr_annealing_wav2vec self) stage_loss) as [[old_w new_w] sw].
  cbn -[insert lookup singletonM]. rewrite Hom.
  cbn -[insert lookup singletonM]. rewrite How.
  cbn -[insert lookup singletonM]. rewrite Hts.
  cbn -[insert lookup singletonM]. rewrite Hck.
  cbn -[insert lookup singletonM]. rewrite stage_stats_WER.
  cbn -[insert lookup singletonM].
  eexists. split; [reflexivity |]. cbn -[insert lookup singletonM].
  repeat split; reflexivity.
Qed.

(** C5.  At the end of a test stage (metrics created by the stage start,
    [wer_file] assigned) [on_stage_end] returns and the file at the path
    held in [hparams.wer_file] contains what the word-error-rate metric
    writes as its statistics; no other file is touched.  [__main__]
    assigns that path before it evaluates: it is [wer_test.txt] joined to
    the output folder. *)
Theorem test_stage_writes_wer_file
  (self : Brain) (stage_loss : R) (epoch : option Z)
  (cer wer : Metric) (path : string) :
  cer_metric self = Some cer ->
  wer_metric self = Some wer ->
  wer_file self = Some path ->
  (exists self',
     on_stage_end TEST stage_loss epoch self = Ok (tt, self')
     /\ files self' !! path = Some (write_stats wer)
     /\ (forall other, other <> path -> files self' !! other = files self !! other)
     /\ wer_metric self' = Some wer)
  /\ forall batches,
       let assigned := Py.os_path_join (output_folder (hparams self)) "wer_test.txt" in
       main_testing batches self
       = evaluate_stage TEST None batches (set_wer_file (Some assigned) self)
       /\ wer_file (set_wer_file (Some assigned) self) = Some assigned.
Proof.
  intros Hc Hw Hp. split.
  - unfold on_stage_end. cbn [Stage_eqb].
    unfold bind, get, modify, getattr, ret. rewrite Hc, Hw.
    cbn -[insert lookup singletonM]. rewrite Hp.
    cbn -[insert lookup singletonM]. rewrite Hw.
    cbn -[insert lookup singletonM].
    eexists. split; [reflexivity |]. cbn -[insert lookup singletonM].
    split; [|split].
    + apply lookup_insert_eq.
    + intros other Hne. apply lookup_insert_ne. congruence.
    + exact Hw.
  - intros batches. split; reflexivity.
Qed.

(** C6, as the code has it.  [init_optimizers] always returns and builds
    exactly the two optimizers: the one of class [wav2vec_opt_class] over
    the parameters of the wav2vec2 module, the one of class
    [model_opt_class] over the parameters of [hparams.model].  When the
    brain has a checkpointer, both are added to its recoverables, under
    the names wav2vec_opt and modelopt, and nothing else of it changes;
    when the brain has none, nothing is registered. *)
Theorem init_optimizers_builds_two_and_registers_if_checkpointer (self : Brain) :
  exists self',
    init_optimizers self = Ok (tt, self')
    /\ wav2vec_optimizer self'
       = Some {| over := wav2vec2_parameters;
                 opt := wav2vec_opt_class (hparams self) |}
    /\ model_optimizer self'
       = Some {| over := model_parameters;
                 opt := model_opt_class (hparams self) |}
    /\ match checkpointer self with
       | Some ck =>
           checkpointer self'
           = Some {| recoverables :=
                       <[ "modelopt" := ref_model_optimizer ]>
                         (<[ "wav2vec_opt" := ref_wav2vec_optimizer ]>
                            (recoverables ck));
                     saved := saved ck |}
           /\ registers_both (init_optimizers self)
       | None =>
           checkpointer self' = None
           /\ ~ registers_both (init_optimizers self)
       end.
Proof.
  unfold init_optimizers, bind, get, modify, ret. cbn -[insert lookup].
  destruct (checkpointer self) as [ck|] eqn:Hck; cbn -[insert lookup].
  - eexists. split; [reflexivity |]. cbn -[insert lookup].
    repeat split; try reflexivity.
    eexists _, _. split; [reflexivity |]. cbn -[insert lookup].
    split; [reflexivity |]. split.
    + cbn [recoverables]. rewrite lookup_insert_ne by done. apply lookup_insert_eq.
    + cbn [recoverables]. apply lookup_insert_eq.
  - eexists. split; [reflexivity |]. cbn. repeat split; try assumption.
    intros (s' & ck & Heq & Hsome & _). inversion Heq; subst s'.
    cbn in Hsome. congruence.
Qed.

(** One batch of a validation or test stage: the loss is returned and
    the entry of the batch is appended to both metrics; nothing else of
    the brain changes. *)
Lemma evaluate_batch_eval (self : Brain) (batch : Batch) (stage : Stage)
  (tok : Encoder) (wer cer : Metric) :
  stage <> TRAIN ->
  tokenizer self = Some tok ->
  wer_metric self = Some wer ->
  cer_metric self = Some cer ->
  evaluate_batch batch stage self
  = Ok (eval_loss self batch,
        set_cer_metric (Some (append_entry cer (batch_entry self tok batch)))
          (set_wer_metric (Some (append_entry wer (batch_entry self tok batch)))
             self)).
Proof.
  intros Hs Ht Hw Hc. unfold evaluate_batch. unfold bind at 1. unfold get at 1.
  cbv iota beta. rewrite (compute_forward_eval _ _ _ Hs). unfold bind.
  rewrite (compute_objectives_eval _ _ _ _ _ _ tok wer cer Hs Ht Hw Hc).
  reflexivity.
Qed.

(** The batches of a stage, one after the other, from a brain whose
    metrics are [cer] and [wer]. *)
Lemma evaluate_batches_eval (self : Brain) (stage : Stage) (tok : Encoder)
  (batches : list Batch) :
  stage <> TRAIN ->
  tokenizer self = Some tok ->
  forall wer cer,
    mapM (fun batch => evaluate_batch batch stage) batches
      (set_cer_metric (Some cer) (set_wer_metric (Some wer) self))
    = Ok (map (eval_loss self) batches,
          set_cer_metric
            (Some (accumulate cer (map (batch_entry self tok) batches)))
            (set_wer_metric
               (Some (accumulate wer (map (batch_entry self tok) batches)))
               self)).
Proof.
  intros Hs Ht. induction batches as [|batch batches IH]; intros wer cer.
  - reflexivity.
  - cbn [mapM map]. unfold bind at 1.
    rewrite (evaluate_batch_eval
               (set_cer_metric (Some cer) (set_wer_metric (Some wer) self))
               batch stage tok wer cer Hs Ht eq_refl eq_refl).
    cbv iota beta. unfold bind at 1.
    pose proof (IH (append_entry wer (batch_entry self tok batch))
                  (append_entry cer (batch_entry self tok batch))) as IH'.
    match goal with
    | |- context [mapM ?f batches ?s] =>
        change (mapM f batches s)
          with (mapM f batches
                  (set_cer_metric
                     (Some (append_entry cer (batch_entry self tok batch)))
                     (set_wer_metric
                        (Some (append_entry wer (batch_entry self tok batch)))
                        self)))
    end.
    rewrite IH'. reflexivity.
Qed.

(** C10.  At the start of every validation or test stage [on_stage_start]
    puts a newly constructed character-error-rate and word-error-rate
    metric in place of whatever was there.  Hence, when the stage has run
    over its batches, each metric is the new one with the entries of
    exactly these batches appended, and it is that metric the stage end
    summarizes or writes; and a whole stage started from a brain holding
    any other metrics (left by an earlier stage or epoch) ends in the same
    outcome and the same state. *)
Theorem metrics_fresh_each_stage
  (self : Brain) (stage : Stage) (epoch : option Z) (batches : list Batch)
  (tok : Encoder) :
  stage <> TRAIN ->
  tokenizer self = Some tok ->
  let entries := map (batch_entry self tok) batches in
  let fresh_cer := cer_computer (hparams self) in
  let fresh_wer := error_rate_computer (hparams self) in
  (exists self1,
     on_stage_start stage epoch self = Ok (tt, self1)
     /\ cer_metric self1 = Some fresh_cer
     /\ wer_metric self1 = Some fresh_wer)
  /\ (exists losses self2,
        bind (on_stage_start stage epoch)
          (fun _ => mapM (fun batch => evaluate_batch batch stage) batches) self
        = Ok (losses, self2)
        /\ cer_metric self2 = Some (accumulate fresh_cer entries)
        /\ wer_metric self2 = Some (accumulate fresh_wer entries)
        /\ evaluate_stage stage epoch batches self
           = on_stage_end stage (average losses) epoch self2)
  /\ forall old_cer old_wer,
       evaluate_stage stage epoch batches
         (set_cer_metric old_cer (set_wer_metric old_wer self))
       = evaluate_stage stage epoch batches self.
Proof.
  intros Hs Ht entries fresh_cer fresh_wer.
  assert (Hstart : forall s,
            on_stage_start stage epoch s
            = Ok (tt, set_wer_metric (Some (error_rate_computer (hparams s)))
                        (set_cer_metric (Some (cer_computer (hparams s))) s))).
  { intros s. unfold on_stage_start. rewrite (not_TRAIN _ Hs). reflexivity. }
  split; [|split].
  - eexists. split; [apply Hstart |]. split; reflexivity.
  - assert (Hrun :
      mapM (fun batch => evaluate_batch batch stage) batches
        (set_wer_metric (Some fresh_wer) (set_cer_metric (Some fresh_cer) self))
      = Ok (map (eval_loss self) batches,
            set_cer_metric (Some (accumulate fresh_cer entries))
              (set_wer_metric (Some (accumulate fresh_wer entries)) self)))
      by exact (evaluate_batches_eval self stage tok batches Hs Ht
                  fresh_wer fresh_cer).
    unfold evaluate_stage, bind. rewrite Hstart.
    fold fresh_cer fresh_wer. rewrite Hrun.
    eexists _, _. split; [reflexivity |]. repeat split; reflexivity.
  - intros old_cer old_wer. unfold evaluate_stage, bind.
    rewrite !Hstart. reflexivity.
Qed.

(** ** The dataset pipeline *)

(** The batches are the collations of the groups. *)
Lemma batched_loop_groups {A B} (n : Z) (c : list A -> B) (p fl : bool)
  (data : list A) :
  forall batch,
    batched_loop n c p fl data batch
    = map c (batched_loop n (fun l => l) p fl data batch).
Proof.
  induction data as [|x data IH]; intros batch; simpl.
  - destruct (negb fl); [reflexivity |].
    destruct (Z.of_nat (List.length batch) =? 0); [reflexivity |].
    destruct ((Z.of_nat (List.length batch) =? n) || p); reflexivity.
  - destruct (n <=? Z.of_nat (List.length batch)); simpl; now rewrite IH.
Qed.

(** With [partial=False] and a positive size every group is full; the
    groups are consecutive stretches of the data, and what is left over is
    shorter than a group when the loop was allowed to finish. *)
Lemma groups_full {A} (n : Z) (fl : bool) (data : list A) :
  0 < n ->
  forall batch,
    Z.of_nat (List.length batch) <= n ->
    Forall (fun g => Z.of_nat (List.length g) = n)
      (batched_loop n (fun l => l) false fl data batch)
    /\ exists rest,
         batch ++ data = concat (batched_loop n (fun l => l) false fl data batch) ++ rest
         /\ (fl = true -> Z.of_nat (List.length rest) < n).
Proof.
  intros Hn. induction data as [|x data IH]; intros batch Hb; simpl.
  - destruct fl; simpl.
    + destruct (Z.eqb_spec (Z.of_nat (List.length batch)) 0) as [E0|E0].
      * split; [constructor |]. exists []. destruct batch; [|simpl in E0; lia].
        split; [reflexivity | simpl; lia].
      * rewrite orb_false_r.
        destruct (Z.eqb_spec (Z.of_nat (List.length batch)) n) as [En|En].
        -- split; [repeat constructor; exact En |]. exists []. simpl.
           split; [now rewrite !app_nil_r | lia].
        -- split; [constructor |]. exists batch. simpl.
           split; [now rewrite app_nil_r | intros _; lia].
    + split; [constructor |]. exists batch. simpl.
      split; [now rewrite app_nil_r | discriminate].
  - destruct (Z.leb_spec n (Z.of_nat (List.length batch))) as [Hfull|Hroom].
    + destruct (IH [x]) as [Hall (rest & Heq & Hrest)]; [simpl; lia |].
      split; [constructor; [lia | exact Hall] |].
      exists rest. simpl. rewrite <- app_assoc, <- Heq. split; [reflexivity | exact Hrest].
    + destruct (IH (batch ++ [x])) as [Hall (rest & Heq & Hrest)];
        [rewrite List.length_app; simpl; lia |].
      split; [exact Hall |]. exists rest. rewrite <- Heq, <- app_assoc.
      split; [reflexivity | exact Hrest].
Qed.

Lemma batch_yielded_full (n : Z) (its : Yielded Item) :
  0 < n -> full_batches n its (batch_yielded n PaddedBatch false its).
Proof.
  intros Hn.
  destruct (groups_full n (bool_decide (ended_by its = None)) (items its) Hn [])
    as [Hall (rest & Heq & Hrest)]; [simpl; lia |].
  exists (groups n false (bool_decide (ended_by its = None)) (items its)), rest.
  split; [apply batched_loop_groups |]. split; [exact Hall |].
  split; [exact Heq |]. intros Hnone. apply Hrest. now apply bool_decide_eq_true.
Qed.





(** C9.  With positive batch sizes, each of the three datasets yields the
    [PaddedBatch] collations of groups that hold exactly the batch size of
    the split ([batch_size] for training and validation,
    [test_batch_size] for test); the groups are consecutive stretches of
    the extracted records, and the records after the last full group,
    fewer than a batch when the iteration ran to its end, are in no batch:
    no callback sees them. *)
Theorem batches_are_full
  (hparams : HParams) (fs : gmap string string) (sh : Shards) :
  0 < batch_size hparams ->
  0 < test_batch_size hparams ->
  let '(train_data, valid_data, test_data, label_encoder, fs') :=
    dataio_prepare hparams fs in
  let extracted pattern :=
    map_yielded (shard_extractor label_encoder) (split_source hparams pattern sh) in
  full_batches (batch_size hparams) (extracted (train_shards hparams)) (train_data sh)
  /\ full_batches (batch_size hparams) (extracted (valid_shards hparams))
       (valid_data sh)
  /\ full_batches (test_batch_size hparams) (extracted (test_shards hparams))
       (test_data sh).
Proof.
  intros Hb Ht. unfold dataio_prepare.
  destruct (load_or_create _ _ fs) as [enc fs']. cbv zeta.
  repeat split; apply batch_yielded_full; assumption.
Qed.

End Properties.

(** ** The statements at work on the small instance *)

Import Toy.


(** C6, as stated, fails: without a checkpointer the two optimizers are
    built and nothing is registered. *)
Lemma no_checkpointer_no_registration :
  (exists self',
     init_optimizers (Toy.the_brain false None) = Ok (tt, self')
     /\ wav2vec_optimizer self' = Some {| over := wav2vec2_parameters; opt := 1 |}
     /\ model_optimizer self' = Some {| over := model_parameters; opt := 10 |}
     /\ checkpointer self' = None)
  /\ ~ registers_both (init_optimizers (Toy.the_brain false None)).
Proof.
  split.
  - eexists. split; [reflexivity |]. repeat split.
  - intros (self' & ck & Heq & Hck & _).
    cbv [init_optimizers bind get modify ret] in Heq. cbn in Heq.
    inversion Heq; subst self'. cbn in Hck. discriminate.
Qed.

Lemma validation_anneals_and_checkpoints_witness :
  exists self',
    on_stage_end VALID 9 (Some 1) (Toy.the_brain true (Some Toy.empty_ck))
    = Ok (tt, self')
    /\ model_optimizer self' = Some {| over := model_parameters; opt := 4 |}
    /\ wav2vec_optimizer self' = Some {| over := wav2vec2_parameters; opt := 2 |}
    /\ option_map saved (checkpointer self')
       = Some [ {| meta := {[ "WER" := 1 ]}; min_keys := ["WER"] |} ].
Proof.
  destruct (validation_anneals_and_checkpoints
              (Toy.the_brain true (Some Toy.empty_ck)) 9 (Some 1)
              _ _ _ _ _ _
              eq_refl eq_refl eq_refl eq_refl eq_refl eq_refl)
    as (self' & Hrun & _ & _ & Hom & How & _ & Hck & _).
  exists self'. split; [exact Hrun |]. split; [exact Hom |]. split; [exact How |].
  rewrite Hck. reflexivity.
Defined.

Lemma augmentation_only_in_training_witness :
  compute_forward (Toy.the_brain true None) Toy.a_batch TRAIN
  = ([12; 14; 16; 18; 14; 16; 18; 20], [100; 50; 100; 50], None)
  /\ fst (compute_forward (Toy.the_brain true None) Toy.a_batch VALID)
     = ([11; 12; 13; 14], [100; 50]).
Proof.
  destruct (augmentation_only_in_training (Toy.the_brain true None) Toy.a_batch)
    as (Heval & Htrain & _).
  split.
  - destruct (Htrain (fun wavs _ => map (map Z.succ) wavs) eq_refl) as (Hf & _).
    rewrite Hf. reflexivity.
  - destruct (Heval VALID ltac:(discriminate)) as (Hf & _).
    rewrite Hf. reflexivity.
Defined.


Lemma test_stage_writes_wer_file_witness :
  exists self',
    on_stage_end TEST 9 None (Toy.the_brain false None) = Ok (tt, self')
    /\ files self' !! "results/wer_test.txt" = Some "old".
Proof.
  destruct (test_stage_writes_wer_file (Toy.the_brain false None) 9 None
              _ _ _ eq_refl eq_refl eq_refl)
    as ((self' & Hrun & Hfile & _) & _).
  exists self'. split; [exact Hrun | exact Hfile].
Defined.

Lemma optimizer_steps_witness :
  (exists loss self',
     fit_batch Toy.a_batch (Toy.the_brain true None) = Ok (loss, self')
     /\ weights self' wav2vec2_parameters = -19
     /\ weights self' model_parameters = -235
     /\ grads self' model_parameters = 0)
  /\ exists loss self',
       fit_batch Toy.a_bad_batch (Toy.the_brain true None) = Ok (loss, self')
       /\ weights self' = weights (Toy.the_brain true None)
       /\ grads self' model_parameters = 0.
Proof.
  split.
  - destruct (optimizer_steps_only_on_good_gradients
                (Toy.the_brain true None) Toy.a_batch _ _ eq_refl eq_refl)
      as (loss & self' & Hobj & Hrun & Hzero & _ & Hgood).
    vm_compute in Hobj. injection Hobj as <-.
    eexists _, self'. split; [exact Hrun |].
    destruct (Hgood eq_refl) as (Hw1 & Hw2 & _).
    rewrite Hw1, Hw2, Hzero. repeat split.
  - destruct (optimizer_steps_only_on_good_gradients
                (Toy.the_brain true None) Toy.a_bad_batch _ _ eq_refl eq_refl)
      as (loss & self' & Hobj & Hrun & Hzero & Hbad & _).
    vm_compute in Hobj. injection Hobj as <-.
    eexists _, self'. split; [exact Hrun |].
    destruct (Hbad eq_refl) as (Hw & _).
    rewrite Hw, Hzero. split; reflexivity.
Defined.

Lemma metrics_fresh_each_stage_witness :
  exists losses self2,
    bind (on_stage_start VALID (Some 1))
      (fun _ => mapM (fun batch => evaluate_batch batch VALID) [Toy.a_batch])
      (Toy.the_brain false None)
    = Ok (losses, self2)
    /\ wer_metric self2
       = Some [(["utt1"; "utt2"],
                map (words_of (∅ : gmap string Z)) [[11; 12; 13; 14]; [11; 12; 13; 14]],
                [["hi"; "a"]; ["a"; "b"]])].
Proof.
  destruct (metrics_fresh_each_stage (Toy.the_brain false None) VALID (Some 1)
              [Toy.a_batch] _ ltac:(discriminate) eq_refl)
    as (_ & (losses & self2 & Hrun & _ & Hwer & _) & _).
  exists losses, self2. split; [exact Hrun |]. rewrite Hwer. reflexivity.
Defined.

Lemma batches_are_full_witness :
  let '(train_data, valid_data, test_data, label_encoder, fs') :=
    dataio_prepare Toy.the_hparams ∅ in
  let extracted pattern :=
    map_yielded (shard_extractor label_encoder)
      (split_source Toy.the_hparams pattern Toy.the_shards) in
  full_batches 2 (extracted "train-*.tar") (train_data Toy.the_shards)
  /\ full_batches 2 (extracted "dev-*.tar") (valid_data Toy.the_shards)
  /\ full_batches 2 (extracted "test-*.tar") (test_data Toy.the_shards).
Proof.
  exact (batches_are_full Toy.the_hparams ∅ Toy.the_shards eq_refl eq_refl).
Defined.

(** Five training records in batches of two: two batches, and the record
    that comes last after the shuffle is in neither. *)
Example toy_train_batches :
  let '(train_data, _, _, _, _) := dataio_prepare Toy.the_hparams ∅ in
  map b_id (items (train_data Toy.the_shards)) = [["k5"; "k4"]; ["k3"; "k2"]].
Proof. vm_compute. reflexivity. Qed.

(** A transcript that is not UTF-8 ends the iteration: the group that was
    full and waiting for the next record is lost with it. *)
Example toy_bad_transcript :
  let bad := {| raw_key := "k3"; raw_wav := "ab";
                raw_text := String (ascii_of_nat 255) "" |} in
  let raw : Yielded RawRecord :=
    {| items := [Toy.rec_of "k1" "a"; Toy.rec_of "k2" "b"; bad; Toy.rec_of "k4" "d"];
       ended_by := None |} in
  let out :=
    batch_yielded 2 PaddedBatch false (map_yielded (shard_extractor ∅) raw) in
  map b_id (items out) = [] /\ ended_by out = Some (UnicodeDecodeError 0).
Proof. vm_compute. split; reflexivity. Qed.

(** * Further properties of the script *)

(** ** Python built-ins as the script uses them *)

Lemma split_space_not_nil (s : string) : Py.split_space s <> [].
Proof.
  destruct s as [|c s]; simpl; [discriminate |].
  destruct (Ascii.eqb c " "); [discriminate |].
  destruct (Py.split_space s); discriminate.
Qed.

Lemma concat_space_cons (w : string) (ws : list string) :
  ws <> [] ->
  String.concat " " (w :: ws) = (w ++ String " " (String.concat " " ws))%string.
Proof. destruct ws; [congruence | reflexivity]. Qed.

(** [" ".join(s.split(" ")) == s] *)
Lemma split_space_join (s : string) : String.concat " " (Py.split_space s) = s.
Proof.
  induction s as [|c s IH]; [reflexivity |].
  cbn [Py.split_space]. destruct (Ascii.eqb_spec c " ") as [-> | Hc].
  - rewrite concat_space_cons by apply split_space_not_nil. now rewrite IH.
  - pose proof (split_space_not_nil s) as Hne.
    destruct (Py.split_space s) as [|w ws]; [congruence |].
    destruct ws as [|w' ws].
    + cbn in IH |- *. now rewrite IH.
    + rewrite concat_space_cons in IH by discriminate.
      rewrite concat_space_cons by discriminate.
      change (String c (w ++ String " " (String.concat " " (w' :: ws)))%string
              = String c s).
      now rewrite IH.
Qed.

Lemma split_space_no_space (s : string) :
  Forall (fun w => has_space w = false) (Py.split_space s).
Proof.
  induction s as [|c s IH]; cbn [Py.split_space].
  - repeat constructor.
  - destruct (Ascii.eqb c " ") eqn:Ec.
    + constructor; [reflexivity | exact IH].
    + destruct (Py.split_space s) as [|w ws]; [repeat constructor; simpl; now rewrite Ec |].
      inversion IH; subst. constructor; [simpl; now rewrite Ec | assumption].
Qed.

(** [l[:k]] is a prefix of [l], of the length Python gives it. *)
Lemma slice_to_prefix {A} (k : Z) (l : list A) :
  exists rest, l = Py.slice_to k l ++ rest.
Proof.
  unfold Py.slice_to. destruct (0 <=? k); eexists; symmetry; apply firstn_skipn.
Qed.

Lemma slice_to_length {A} (k : Z) (l : list A) :
  Z.of_nat (List.length (Py.slice_to k l))
  = if 0 <=? k then Z.min k (Z.of_nat (List.length l))
    else Z.max 0 (Z.of_nat (List.length l) + k).
Proof.
  unfold Py.slice_to. destruct (Z.leb_spec 0 k); rewrite List.length_firstn; lia.
Qed.


(** Every character of a decoded text has one to four octets, and there
    are no more characters than octets. *)
Lemma utf8_chars_sizes fuel :
  forall pos s cs,
    Py.utf8_chars fuel pos s = Ok cs ->
    Forall (fun c => (1 <= String.length c <= 4)%nat) cs
    /\ (List.length cs <= String.length s)%nat.
Proof.
  induction fuel as [|fuel IH]; intros pos s cs; simpl.
  - destruct s; [intros [= <-]; split; [constructor | simpl; lia] | discriminate].
  - destruct s as [|c0 r0]; [intros [= <-]; split; [constructor | simpl; lia] |].
    destruct (Py.lead c0) as [[[[|[|[|[|n]]]] lo] hi]|]; try discriminate.
    + destruct r0 as [|c1 [|c2 [|c3 r3]]]; try discriminate.
      destruct (_ && _ && _); [|discriminate].
      destruct (Py.utf8_chars fuel _ r3) eqn:E; [|discriminate].
      intros [= <-]. apply IH in E as [Hall Hlen].
      split; [constructor; [simpl; lia | exact Hall] | simpl; lia].
    + destruct (Py.utf8_chars fuel _ r0) eqn:E; [|discriminate].
      intros [= <-]. apply IH in E as [Hall Hlen].
      split; [constructor; [simpl; lia | exact Hall] | simpl; lia].
    + destruct r0 as [|c1 r1]; try discriminate.
      destruct (Py.in_range _ _ _); [|discriminate].
      destruct (Py.utf8_chars fuel _ r1) eqn:E; [|discriminate].
      intros [= <-]. apply IH in E as [Hall Hlen].
      split; [constructor; [simpl; lia | exact Hall] | simpl; lia].
    + destruct r0 as [|c1 [|c2 r2]]; try discriminate.
      destruct (_ && _); [|discriminate].
      destruct (Py.utf8_chars fuel _ r2) eqn:E; [|discriminate].
      intros [= <-]. apply IH in E as [Hall Hlen].
      split; [constructor; [simpl; lia | exact Hall] | simpl; lia].
    + destruct r0 as [|c1 [|c2 [|c3 r3]]]; try discriminate.
      destruct (_ && _ && _); [|discriminate].
      destruct (Py.utf8_chars fuel _ r3) eqn:E; [|discriminate].
      intros [= <-]. apply IH in E as [Hall Hlen].
      split; [constructor; [simpl; lia | exact Hall] | simpl; lia].
Qed.

Section FurtherProperties.
Context {C : Carriers} {F : Framework}.

(** ** Reading and decoding *)

(** A comprehension whose body leaves [self] alone leaves it alone. *)
Lemma mapM_reads {A B} (f : A -> M B) (l : list A) :
  (forall x s y s', f x s = Ok (y, s') -> s' = s) ->
  forall s ys s', mapM f l s = Ok (ys, s') -> s' = s.
Proof.
  intros Hf. induction l as [|x l IH]; intros s ys s'; simpl.
  - intros [= _ <-]. reflexivity.
  - unfold bind. destruct (f x s) as [[y s1]|] eqn:E1; [|discriminate].
    apply Hf in E1. subst s1.
    destruct (mapM f l s) as [[ys' s2]|] eqn:E2; [|discriminate].
    apply IH in E2. subst s2. intros [= _ <-]. reflexivity.
Qed.

Lemma decode_words_reads (seq : list Z) (s : Brain) (ws : list string) (s' : Brain) :
  decode_words seq s = Ok (ws, s') -> s' = s.
Proof.
  unfold decode_words, bind, getattr, ret.
  destruct (tokenizer s); [intros [= _ <-]; reflexivity | discriminate].
Qed.

(** X1.  The words of an utterance, joined by single spaces, are the
    string its tokens decode to; there is always at least one word (an
    utterance decoded to nothing has the one word [""]), and no word has
    a space in it. *)
Theorem words_join_back (tok : Encoder) (seq : list Z) :
  String.concat " " (words_of tok seq) = Py.join_empty (decode_ndim tok seq)
  /\ words_of tok seq <> []
  /\ Forall (fun w => has_space w = false) (words_of tok seq)
  /\ (decode_ndim tok seq = [] -> words_of tok seq = [""]).
Proof.
  unfold words_of. split; [apply split_space_join |].
  split; [apply split_space_not_nil |]. split; [apply split_space_no_space |].
  intros ->. reflexivity.
Qed.

(** X2.  The target of an utterance is a prefix of its padded row: the
    first [int(utt_len * n)] tokens of the [n], all of them when that
    number is [n] or more, none when it is zero, and all but the last
    [-k] when it is a negative [k]. *)
Theorem unpad_is_prefix (utt_tokens : list Z) (utt_len : R) :
  let k := int_mul utt_len (List.length utt_tokens) in
  let n := Z.of_nat (List.length utt_tokens) in
  (exists padding, utt_tokens = unpad utt_tokens utt_len ++ padding)
  /\ Z.of_nat (List.length (unpad utt_tokens utt_len))
     = (if 0 <=? k then Z.min k n else Z.max 0 (n + k))
  /\ (n <= k -> unpad utt_tokens utt_len = utt_tokens)
  /\ (k = 0 -> unpad utt_tokens utt_len = []).
Proof.
  cbv zeta. unfold unpad. split; [apply slice_to_prefix |].
  split; [apply slice_to_length |]. split.
  - intros Hk. unfold Py.slice_to.
    destruct (Z.leb_spec 0 (int_mul utt_len (List.length utt_tokens))); [|lia].
    apply firstn_all2. lia.
  - intros ->. reflexivity.
Qed.

(** X3.  When [bytes.decode("utf-8")] succeeds, the characters put
    together are the octets decoded, every character has one to four
    octets, and there are no more characters than octets. *)
Theorem utf8_decoding_round_trip (b : string) (cs : list string) :
  Py.decode_utf8_list b = Ok cs ->
  String.concat "" cs = b
  /\ Forall (fun c => (1 <= String.length c <= 4)%nat) cs
  /\ (List.length cs <= String.length b)%nat.
Proof.
  unfold Py.decode_utf8_list. intros H. split.
  - exact (utf8_chars_concat _ _ _ _ H).
  - exact (utf8_chars_sizes _ _ _ _ H).
Qed.


(** ** What the batch callbacks leave alone, and when they raise *)

(** [compute_objectives] changes nothing, or the two metrics and nothing
    else. *)
Lemma compute_objectives_frame
  (pr : Tensor * list R * option (list (list Z))) (batch : Batch) (stage : Stage)
  (s : Brain) (loss : Tensor) (s' : Brain) :
  compute_objectives pr batch stage s = Ok (loss, s') ->
  s' = s \/ exists w c, s' = set_cer_metric (Some c) (set_wer_metric (Some w) s).
Proof.
  destruct pr as [[p_ctc wav_lens] p_tokens].
  unfold compute_objectives. destruct (b_tokens batch) as [tokens tokens_lens].
  unfold bind at 1. unfold get at 1. cbv iota beta.
  destruct (Stage_eqb stage TRAIN).
  - destruct (env_corrupt (modules s)); cbn; intros [= _ <-]; now left.
  - destruct (env_corrupt (modules s)); cbn [negb];
      (destruct p_tokens as [seqs|]; [|discriminate]);
      unfold bind;
      (destruct (mapM decode_words seqs s) as [[pw s1]|] eqn:E1; [|discriminate]);
      apply (mapM_reads _ _ decode_words_reads) in E1; subst s1;
      match goal with
      | |- context [mapM ?f ?l s] =>
          destruct (mapM f l s) as [[tw s2]|] eqn:E2; [|discriminate];
          apply (mapM_reads f l) in E2;
            [subst s2 | intros [a b] ? ? ?; apply decode_words_reads]
      end;
      unfold getattr, modify, ret;
      (destruct (wer_metric s) as [wer|]; [|discriminate]); cbn;
      (destruct (cer_metric s) as [cer|]; [|discriminate]); cbn;
      intros [= _ <-]; right; eauto.
Qed.

(** X5.  Evaluating a batch never trains: when [evaluate_batch] returns,
    in whatever stage, the weights, the gradients, the two optimizers and
    the schedulers are those it found, and so are the files, the log, the
    checkpointer and the stored training statistics. *)
Theorem evaluate_batch_never_trains
  (batch : Batch) (stage : Stage) (s : Brain) (loss : Tensor) (s' : Brain) :
  evaluate_batch batch stage s = Ok (loss, s') ->
  weights s' = weights s
  /\ grads s' = grads s
  /\ wav2vec_optimizer s' = wav2vec_optimizer s
  /\ model_optimizer s' = model_optimizer s
  /\ lr_annealing_model s' = lr_annealing_model s
  /\ lr_annealing_wav2vec s' = lr_annealing_wav2vec s
  /\ files s' = files s
  /\ train_logger s' = train_logger s
  /\ checkpointer s' = checkpointer s
  /\ train_stats s' = train_stats s.
Proof.
  unfold evaluate_batch. unfold bind at 1. unfold get at 1. cbv iota beta.
  unfold bind.
  destruct (compute_objectives (compute_forward s batch stage) batch stage s)
    as [[l s1]|] eqn:E; [|discriminate].
  intros [= _ <-]. apply compute_objectives_frame in E.
  destruct E as [-> | (w & c & ->)]; repeat split.
Qed.

(** X6.  Outside training [compute_objectives] cannot take the output of
    a training forward pass: with [None] for the decoded tokens it raises
    a [TypeError], whatever the brain holds. *)
Theorem objectives_on_undecoded_predictions_raise
  (p_ctc : Tensor) (wav_lens : list R) (batch : Batch) (stage : Stage) (s : Brain) :
  stage <> TRAIN ->
  compute_objectives (p_ctc, wav_lens, None) batch stage s
  = Raise (TypeError "'NoneType' object is not iterable")
  /\ compute_objectives (compute_forward s batch TRAIN) batch stage s
     = Raise (TypeError "'NoneType' object is not iterable").
Proof.
  intros Hs.
  assert (Hnone : forall p l,
            compute_objectives (p, l, None) batch stage s
            = Raise (TypeError "'NoneType' object is not iterable")).
  { intros p l. unfold compute_objectives.
    destruct (b_tokens batch) as [tokens tokens_lens].
    unfold bind at 1. unfold get at 1. cbv iota beta. rewrite (not_TRAIN _ Hs).
    destruct (env_corrupt (modules s)); reflexivity. }
  split; [apply Hnone |].
  rewrite compute_forward_train.
  destruct (env_corrupt (modules s)); apply Hnone.
Qed.

(** X7.  A batch evaluated before the stage start has created the metrics
    raises an [AttributeError]: with a tokenizer but no word-error-rate
    metric [evaluate_batch] of a validation or test stage does not
    return. *)
Theorem evaluate_before_stage_start_raises
  (batch : Batch) (stage : Stage) (s : Brain) (tok : Encoder) :
  stage <> TRAIN ->
  tokenizer s = Some tok ->
  wer_metric s = None ->
  evaluate_batch batch stage s = Raise (AttributeError "wer_metric").
Proof.
  intros Hs Ht Hw. unfold evaluate_batch. unfold bind at 1. unfold get at 1.
  cbv iota beta. rewrite (compute_forward_eval _ _ _ Hs). unfold bind.
  unfold compute_objectives. destruct (b_tokens batch) as [tokens tokens_lens].
  unfold bind at 1. unfold get at 1. cbv iota beta. rewrite (not_TRAIN _ Hs).
  destruct (env_corrupt (modules s)); cbn [negb]; unfold bind;
    rewrite (mapM_pure decode_words (words_of tok) _ s
               (fun x => decode_words_ok tok s x Ht));
    rewrite (mapM_pure
               (fun '(utt_tokens, utt_len) => decode_words (unpad utt_tokens utt_len))
               (fun '(utt_tokens, utt_len) => words_of tok (unpad utt_tokens utt_len))
               (combine tokens tokens_lens) s)
      by (intros [a b]; apply decode_words_ok; exact Ht);
    unfold getattr; rewrite Hw; reflexivity.
Qed.

(** X8.  [fit_batch] returns exactly when both optimizers have been
    built; otherwise it raises, also on a batch whose gradients
    [check_gradients] refuses, because the gradients are zeroed through
    the optimizers in both cases. *)
Theorem fit_batch_returns_iff_optimizers (batch : Batch) (s : Brain) :
  returns (fit_batch batch s)
  = present (wav2vec_optimizer s) && present (model_optimizer s).
Proof.
  destruct (compute_forward s batch TRAIN) as [[p_ctc wav_lens] p_tokens] eqn:Hf.
  pose proof (compute_objectives_train s batch p_ctc wav_lens p_tokens) as Hobj.
  set (loss := match env_corrupt (modules s) with
               | Some _ => _ | None => _ end) in Hobj.
  unfold fit_batch. unfold bind at 1. unfold get at 1. cbv iota beta.
  rewrite Hf. unfold bind at 1. rewrite Hobj.
  unfold bind, get, modify, getattr. cbn [grads set_grads].
  destruct (check_gradients loss (backward loss (grads s))) as [ok clipped].
  destruct (wav2vec_optimizer s) as [ow|] eqn:Eow,
           (model_optimizer s) as [om|] eqn:Eom;
    destruct ok;
    repeat (progress (cbn; rewrite ?Eow, ?Eom; unfold optimizer_step);
            try match goal with
                | |- context [step ?o ?w ?g] => destruct (step o w g) as [? ?]
                end);
    reflexivity.
Qed.

(** X9.  A training step does no bookkeeping: when [fit_batch] returns,
    the metrics, the stored training statistics, the log, the
    checkpointer, the schedulers, the files, the tokenizer and [wer_file]
    are those it found. *)
Theorem fit_batch_does_no_bookkeeping
  (batch : Batch) (s : Brain) (loss : Tensor) (s' : Brain) :
  fit_batch batch s = Ok (loss, s') ->
  cer_metric s' = cer_metric s
  /\ wer_metric s' = wer_metric s
  /\ train_stats s' = train_stats s
  /\ train_logger s' = train_logger s
  /\ checkpointer s' = checkpointer s
  /\ lr_annealing_model s' = lr_annealing_model s
  /\ lr_annealing_wav2vec s' = lr_annealing_wav2vec s
  /\ files s' = files s
  /\ tokenizer s' = tokenizer s
  /\ wer_file s' = wer_file s.
Proof.
  destruct (compute_forward s batch TRAIN) as [[p_ctc wav_lens] p_tokens] eqn:Hf.
  pose proof (compute_objectives_train s batch p_ctc wav_lens p_tokens) as Hobj.
  set (l := match env_corrupt (modules s) with
            | Some _ => _ | None => _ end) in Hobj.
  unfold fit_batch. unfold bind at 1. unfold get at 1. cbv iota beta.
  rewrite Hf. unfold bind at 1. rewrite Hobj.
  unfold bind, get, modify, getattr. cbn [grads set_grads].
  destruct (check_gradients l (backward l (grads s))) as [ok clipped].
  destruct (wav2vec_optimizer s) as [ow|] eqn:Eow,
           (model_optimizer s) as [om|] eqn:Eom;
    destruct ok;
    repeat (progress (cbn; rewrite ?Eow, ?Eom; unfold optimizer_step);
            try match goal with
                | |- context [step ?o ?w ?g] => destruct (step o w g) as [? ?]
                end);
    try discriminate; intros [= _ <-]; cbn; rewrite ?Eow, ?Eom; repeat split.
Qed.

(** ** The end of a stage, in full *)

Lemma on_stage_end_train (s : Brain) (l : R) (e : option Z) :
  on_stage_end TRAIN l e s = Ok (tt, set_train_stats (Some {[ "loss" := l ]}) s).
Proof. reflexivity. Qed.

(** The validation branch: the attributes it reads, in the order it reads
    them, and the state it leaves. *)
Lemma on_stage_end_valid (s : Brain) (l : R) (e : option Z) :
  on_stage_end VALID l e s
  = match cer_metric s with
    | None => Raise (AttributeError "cer_metric")
    | Some cer =>
    match wer_metric s with
    | None => Raise (AttributeError "wer_metric")
    | Some wer =>
    match model_optimizer s with
    | None => Raise (AttributeError "model_optimizer")
    | Some om =>
    match wav2vec_optimizer s with
    | None => Raise (AttributeError "wav2vec_optimizer")
    | Some ow =>
    match train_stats s with
    | None => Raise (AttributeError "train_stats")
    | Some ts =>
    match checkpointer s with
    | None => Raise (AttributeError "checkpointer")
    | Some ck =>
        let am := anneal (lr_annealing_model s) l in
        let aw := anneal (lr_annealing_wav2vec s) l in
        let stats : gmap string R :=
          <[ "WER" := summarize wer "error_rate" ]>
            (<[ "CER" := summarize cer "error_rate" ]> {[ "loss" := l ]}) in
        Ok (tt,
            set_checkpointer
              (Some {| recoverables := recoverables ck;
                       saved := saved ck ++
                         [ {| meta := {[ "WER" := summarize wer "error_rate" ]};
                              min_keys := ["WER"] |} ] |})
              (set_train_logger
                 (train_logger s ++
                    [ {| stats_meta := [("epoch", epoch_val e);
                                        ("lr_model", MFloat (fst (fst am)));
                                        ("lr_wav2vec", MFloat (fst (fst aw)))];
                         log_train_stats := Some ts;
                         log_valid_stats := Some stats;
                         log_test_stats := None |} ])
                 (set_wav2vec_optimizer
                    (Some {| over := over ow;
                             opt := update_learning_rate (opt ow) (snd (fst aw)) |})
                    (set_model_optimizer
                       (Some {| over := over om;
                                opt := update_learning_rate (opt om) (snd (fst am)) |})
                       (set_lr_annealing_wav2vec (snd aw)
                          (set_lr_annealing_model (snd am) s))))))
    end end end end end end.
Proof.
  unfold on_stage_end. cbn [Stage_eqb].
  unfold bind, get, modify, getattr, dict_get, ret.
  destruct (cer_metric s) as [cer|]; [|reflexivity].
  destruct (wer_metric s) as [wer|]; [|reflexivity].
  cbn -[insert lookup singletonM]. rewrite !stage_stats_loss.
  destruct (anneal (lr_annealing_model s) l) as [[old_m new_m] sm].
  cbn -[insert lookup singletonM].
  destruct (anneal (lr_annealing_wav2vec s) l) as [[old_w new_w] sw].
  cbn -[insert lookup singletonM].
  destruct (model_optimizer s) as [om|]; [|reflexivity].
  cbn -[insert lookup singletonM].
  destruct (wav2vec_optimizer s) as [ow|]; [|reflexivity].
  cbn -[insert lookup singletonM].
  destruct (train_stats s) as [ts|]; [|reflexivity].
  cbn -[insert lookup singletonM].
  destruct (checkpointer s) as [ck|]; [|reflexivity].
  cbn -[insert lookup singletonM]. rewrite stage_stats_WER. reflexivity.
Qed.

(** The test branch. *)
Lemma on_stage_end_test (s : Brain) (l : R) (e : option Z) :
  on_stage_end TEST l e s
  = match cer_metric s with
    | None => Raise (AttributeError "cer_metric")
    | Some cer =>
    match wer_metric s with
    | None => Raise (AttributeError "wer_metric")
    | Some wer =>
    match wer_file s with
    | None => Raise (AttributeError "wer_file")
    | Some path =>
        let stats : gmap string R :=
          <[ "WER" := summarize wer "error_rate" ]>
            (<[ "CER" := summarize cer "error_rate" ]> {[ "loss" := l ]}) in
        Ok (tt,
            set_files (<[ path := write_stats wer ]> (files s))
              (set_train_logger
                 (train_logger s ++
                    [ {| stats_meta :=
                           [("Epoch loaded", MInt (epoch_counter_current (hparams s)))];
                         log_train_stats := None;
                         log_valid_stats := None;
                         log_test_stats := Some stats |} ])
                 s))
    end end end.
Proof.
  unfold on_stage_end. cbn [Stage_eqb].
  unfold bind, get, modify, getattr, ret.
  destruct (cer_metric s) as [cer|]; [|reflexivity].
  destruct (wer_metric s) as [wer|] eqn:Ew; [|reflexivity].
  cbn -[insert lookup singletonM].
  destruct (wer_file s) as [path|]; [|reflexivity].
  cbn -[insert lookup singletonM]. rewrite Ew. reflexivity.
Qed.

(** X10.  What the end of a stage needs: the end of a training stage
    always returns; the end of a validation stage returns exactly when
    both metrics, both optimizers, the training statistics and a
    checkpointer are there; the end of a test stage returns exactly when
    both metrics and [wer_file] are there. *)
Theorem stage_end_returns_iff (stage : Stage) (l : R) (e : option Z) (s : Brain) :
  returns (on_stage_end stage l e s)
  = match stage with
    | TRAIN => true
    | VALID =>
        present (cer_metric s) && present (wer_metric s)
        && present (model_optimizer s) && present (wav2vec_optimizer s)
        && present (train_stats s) && present (checkpointer s)
    | TEST =>
        present (cer_metric s) && present (wer_metric s) && present (wer_file s)
    end.
Proof.
  destruct stage.
  - reflexivity.
  - rewrite on_stage_end_valid.
    destruct (cer_metric s), (wer_metric s), (model_optimizer s),
      (wav2vec_optimizer s), (train_stats s), (checkpointer s); reflexivity.
  - rewrite on_stage_end_test.
    destruct (cer_metric s), (wer_metric s), (wer_file s); reflexivity.
Qed.

(** X11.  A brain without a checkpointer gets through [init_optimizers]
    but not through the end of a validation stage: with everything else
    in place [on_stage_end] raises an [AttributeError] where it reaches
    for the checkpointer. *)
Theorem validation_without_checkpointer_raises
  (s : Brain) (l : R) (e : option Z)
  (cer wer : Metric) (ts : gmap string R) (om ow : OptimizerObj) :
  checkpointer s = None ->
  cer_metric s = Some cer ->
  wer_metric s = Some wer ->
  train_stats s = Some ts ->
  model_optimizer s = Some om ->
  wav2vec_optimizer s = Some ow ->
  on_stage_end VALID l e s = Raise (AttributeError "checkpointer")
  /\ returns (init_optimizers s) = true.
Proof.
  intros Hck Hc Hw Hts Hom How. split.
  - rewrite on_stage_end_valid, Hc, Hw, Hom, How, Hts, Hck. reflexivity.
  - unfold init_optimizers, bind, get, modify, ret. cbn. rewrite Hck. reflexivity.
Qed.

(** X12.  The end of a stage only adds to the records: the log keeps its
    lines and gets one more (none after training), a checkpointer keeps
    its recoverables and its save requests and gets one more request
    after validation only; files change after a test stage only, the
    optimizers and the schedulers after validation only; the weights,
    the gradients and the metrics never. *)
Theorem stage_end_only_appends
  (stage : Stage) (l : R) (e : option Z) (s s' : Brain) :
  on_stage_end stage l e s = Ok (tt, s') ->
  (exists lines,
     train_logger s' = train_logger s ++ lines
     /\ List.length lines = (if Stage_eqb stage TRAIN then 0 else 1)%nat)
  /\ match checkpointer s with
     | Some ck =>
         exists requests,
           checkpointer s'
           = Some {| recoverables := recoverables ck;
                     saved := saved ck ++ requests |}
           /\ List.length requests = (if Stage_eqb stage VALID then 1 else 0)%nat
     | None => checkpointer s' = None
     end
  /\ (stage <> TEST -> files s' = files s)
  /\ (stage <> VALID ->
        model_optimizer s' = model_optimizer s
        /\ wav2vec_optimizer s' = wav2vec_optimizer s
        /\ lr_annealing_model s' = lr_annealing_model s
        /\ lr_annealing_wav2vec s' = lr_annealing_wav2vec s)
  /\ weights s' = weights s
  /\ grads s' = grads s
  /\ cer_metric s' = cer_metric s
  /\ wer_metric s' = wer_metric s.
Proof.
  assert (Hck : forall ck : Checkpointer,
            ck = {| recoverables := recoverables ck; saved := saved ck ++ [] |}).
  { intros [r sv]. cbn. now rewrite app_nil_r. }
  destruct stage.
  - rewrite on_stage_end_train. intros [= <-]. cbn.
    split; [exists []; now rewrite app_nil_r |].
    split; [|repeat split].
    destruct (checkpointer s) as [ck|]; [|reflexivity].
    exists []. split; [now rewrite <- Hck | reflexivity].
  - rewrite on_stage_end_valid.
    destruct (cer_metric s) as [cer|] eqn:Ec; [|discriminate].
    destruct (wer_metric s) as [wer|] eqn:Ew; [|discriminate].
    destruct (model_optimizer s) as [om|]; [|discriminate].
    destruct (wav2vec_optimizer s) as [ow|]; [|discriminate].
    destruct (train_stats s) as [ts|]; [|discriminate].
    destruct (checkpointer s) as [ck|]; [|discriminate].
    cbv zeta. intros [= <-]. cbn -[insert lookup singletonM].
    split; [eexists; split; reflexivity |].
    split; [eexists; split; reflexivity |].
    split; [reflexivity |]. split; [congruence |]. repeat split; congruence.
  - rewrite on_stage_end_test.
    destruct (cer_metric s) as [cer|] eqn:Ec; [|discriminate].
    destruct (wer_metric s) as [wer|] eqn:Ew; [|discriminate].
    destruct (wer_file s) as [path|]; [|discriminate].
    cbv zeta. intros [= <-]. cbn -[insert lookup singletonM].
    split; [eexists; split; reflexivity |].
    split; [|split; [congruence | repeat split; congruence]].
    destruct (checkpointer s) as [ck|]; [|reflexivity].
    exists []. split; [now rewrite <- Hck | reflexivity].
Qed.

(** X13.  The training loss travels through [self.train_stats]: when the
    end of a training stage is followed by the end of a validation stage,
    the line logged for validation carries the loss of that training
    stage as its training statistics, whatever was stored before, and the
    loss and the two error rates of the validation stage as its
    validation statistics. *)
Theorem training_loss_reaches_validation_log
  (s : Brain) (train_loss valid_loss : R) (e : option Z)
  (cer wer : Metric) (om ow : OptimizerObj) (ck : Checkpointer) :
  cer_metric s = Some cer ->
  wer_metric s = Some wer ->
  model_optimizer s = Some om ->
  wav2vec_optimizer s = Some ow ->
  checkpointer s = Some ck ->
  exists s' line,
    bind (on_stage_end TRAIN train_loss e)
      (fun _ => on_stage_end VALID valid_loss e) s
    = Ok (tt, s')
    /\ train_logger s' = train_logger s ++ [line]
    /\ log_train_stats line = Some {[ "loss" := train_loss ]}
    /\ log_valid_stats line
       = Some (<[ "WER" := summarize wer "error_rate" ]>
                 (<[ "CER" := summarize cer "error_rate" ]>
                    {[ "loss" := valid_loss ]}))
    /\ train_stats s' = Some {[ "loss" := train_loss ]}.
Proof.
  intros Hc Hw Hom How Hck.
  unfold bind. rewrite on_stage_end_train, on_stage_end_valid.
  cbn -[insert lookup singletonM anneal].
  rewrite Hc, Hw, Hom, How, Hck. cbv zeta.
  eexists _, _. split; [reflexivity |]. cbn -[insert lookup singletonM].
  repeat split.
Qed.

(** ** Building the optimizers *)

Lemma init_optimizers_run (s : Brain) :
  init_optimizers s
  = Ok (tt,
        let s1 :=
          set_model_optimizer
            (Some {| over := model_parameters; opt := model_opt_class (hparams s) |})
            (set_wav2vec_optimizer
               (Some {| over := wav2vec2_parameters;
                        opt := wav2vec_opt_class (hparams s) |})
               s) in
        match checkpointer s with
        | Some ck =>
            set_checkpointer
              (Some {| recoverables :=
                         <[ "modelopt" := ref_model_optimizer ]>
                           (<[ "wav2vec_opt" := ref_wav2vec_optimizer ]>
                              (recoverables ck));
                       saved := saved ck |})
              s1
        | None => s1
        end).
Proof.
  unfold init_optimizers, bind, get, modify, ret. cbn -[insert].
  destruct (checkpointer s); reflexivity.
Qed.

(** X14.  Building the optimizers again changes nothing more: two calls
    of [init_optimizers] in a row leave the brain as one call does, the
    recoverables of the checkpointer included (the names are reused, not
    added twice). *)
Theorem init_optimizers_twice (s : Brain) :
  bind init_optimizers (fun _ => init_optimizers) s = init_optimizers s.
Proof.
  unfold bind. rewrite (init_optimizers_run s). cbv zeta.
  destruct (checkpointer s) as [ck|] eqn:Hck.
  - rewrite init_optimizers_run. cbn -[insert].
    rewrite (insert_insert_ne _ "wav2vec_opt" "modelopt") by done.
    rewrite insert_insert_eq.
    rewrite (insert_insert_eq _ "wav2vec_opt").
    reflexivity.
  - rewrite init_optimizers_run. cbn. rewrite Hck. reflexivity.
Qed.

(** X15.  [init_optimizers] touches the two optimizers and the two names
    it registers, nothing else: every other recoverable of the
    checkpointer and all its save requests stay, and so do the weights,
    the gradients, the metrics, the schedulers, the log and the files. *)
Theorem init_optimizers_keeps_the_rest (s : Brain) :
  exists s',
    init_optimizers s = Ok (tt, s')
    /\ match checkpointer s with
       | Some ck =>
           exists ck',
             checkpointer s' = Some ck'
             /\ saved ck' = saved ck
             /\ forall name,
                  name <> "wav2vec_opt" -> name <> "modelopt" ->
                  recoverables ck' !! name = recoverables ck !! name
       | None => checkpointer s' = None
       end
    /\ weights s' = weights s
    /\ grads s' = grads s
    /\ cer_metric s' = cer_metric s
    /\ wer_metric s' = wer_metric s
    /\ train_stats s' = train_stats s
    /\ lr_annealing_model s' = lr_annealing_model s
    /\ lr_annealing_wav2vec s' = lr_annealing_wav2vec s
    /\ train_logger s' = train_logger s
    /\ files s' = files s
    /\ tokenizer s' = tokenizer s.
Proof.
  eexists. split; [apply init_optimizers_run |]. cbv zeta.
  destruct (checkpointer s) as [ck|] eqn:Hck; cbn -[insert].
  - split; [|repeat split].
    eexists. split; [reflexivity |]. split; [reflexivity |].
    intros name Hw Hm. cbn -[insert].
    rewrite lookup_insert_ne by congruence.
    rewrite lookup_insert_ne by congruence. reflexivity.
  - split; [exact Hck | repeat split].
Qed.

(** ** Whole stages *)

(** A validation or test stage with a tokenizer: the stage end is reached
    with the new metrics filled by the batches. *)
Lemma evaluate_stage_run (s : Brain) (stage : Stage) (e : option Z)
  (batches : list Batch) (tok : Encoder) :
  stage <> TRAIN ->
  tokenizer s = Some tok ->
  evaluate_stage stage e batches s
  = on_stage_end stage (average (map (eval_loss s) batches)) e
      (set_cer_metric
         (Some (accumulate (cer_computer (hparams s))
                  (map (batch_entry s tok) batches)))
         (set_wer_metric
            (Some (accumulate (error_rate_computer (hparams s))
                     (map (batch_entry s tok) batches)))
            s)).
Proof.
  intros Hs Ht. unfold evaluate_stage, bind.
  unfold on_stage_start at 1. rewrite (not_TRAIN _ Hs). cbn [negb].
  unfold bind, get, modify.
  change (set_wer_metric (Some (error_rate_computer (hparams s)))
            (set_cer_metric (Some (cer_computer (hparams s))) s))
    with (set_cer_metric (Some (cer_computer (hparams s)))
            (set_wer_metric (Some (error_rate_computer (hparams s))) s)).
  rewrite (evaluate_batches_eval s stage tok batches Hs Ht). reflexivity.
Qed.

(** X16.  The testing part of [__main__] needs the tokenizer and nothing
    else: whatever metrics, [wer_file] or files the brain held,
    [main_testing] returns, and afterwards the file [wer_test.txt] of the
    output folder holds the statistics of a new word-error-rate metric
    to which exactly the test batches were appended; every other file is
    as before, and one line was logged. *)
Theorem main_testing_writes_this_run
  (s : Brain) (batches : list Batch) (tok : Encoder) :
  tokenizer s = Some tok ->
  let path := Py.os_path_join (output_folder (hparams s)) "wer_test.txt" in
  let entries := map (batch_entry s tok) batches in
  exists s' line,
    main_testing batches s = Ok (tt, s')
    /\ files s' !! path
       = Some (write_stats (accumulate (error_rate_computer (hparams s)) entries))
    /\ (forall other, other <> path -> files s' !! other = files s !! other)
    /\ wer_file s' = Some path
    /\ train_logger s' = train_logger s ++ [line]
    /\ weights s' = weights s.
Proof.
  intros Ht path entries.
  unfold main_testing. unfold bind at 1. unfold get at 1. cbv iota beta.
  unfold bind at 1. unfold modify at 1. cbv iota beta.
  match goal with
  | |- context [evaluate_stage TEST None batches ?s0] =>
      rewrite (evaluate_stage_run s0 TEST None batches tok ltac:(discriminate) Ht)
  end.
  rewrite on_stage_end_test. cbn -[insert lookup singletonM].
  eexists _, _. split; [reflexivity |]. cbn -[insert lookup singletonM].
  split; [apply lookup_insert_eq |].
  split; [intros other Hne; apply lookup_insert_ne; congruence |].
  repeat split.
Qed.

(** X17.  One round of bookkeeping from a brain that has a tokenizer and
    a checkpointer and nothing else: after [init_optimizers] and the end
    of a training stage, a validation stage over any batches returns;
    the checkpointer then holds both optimizers and one more save
    request, whose word error rate is that of a new metric filled by
    exactly these batches, and each optimizer has the learning rate its
    scheduler gave for the average validation loss. *)
Theorem validation_round_from_setup
  (s : Brain) (train_loss : R) (e : option Z) (batches : list Batch)
  (tok : Encoder) (ck : Checkpointer) :
  tokenizer s = Some tok ->
  checkpointer s = Some ck ->
  let entries := map (batch_entry s tok) batches in
  let valid_loss := average (map (eval_loss s) batches) in
  let wer := accumulate (error_rate_computer (hparams s)) entries in
  exists s',
    bind init_optimizers
      (fun _ => bind (on_stage_end TRAIN train_loss e)
                  (fun _ => evaluate_stage VALID e batches)) s
    = Ok (tt, s')
    /\ checkpointer s'
       = Some {| recoverables :=
                   <[ "modelopt" := ref_model_optimizer ]>
                     (<[ "wav2vec_opt" := ref_wav2vec_optimizer ]> (recoverables ck));
                 saved := saved ck ++
                   [ {| meta := {[ "WER" := summarize wer "error_rate" ]};
                        min_keys := ["WER"] |} ] |}
    /\ model_optimizer s'
       = Some {| over := model_parameters;
                 opt := update_learning_rate (model_opt_class (hparams s))
                          (snd (fst (anneal (lr_annealing_model s) valid_loss))) |}
    /\ wav2vec_optimizer s'
       = Some {| over := wav2vec2_parameters;
                 opt := update_learning_rate (wav2vec_opt_class (hparams s))
                          (snd (fst (anneal (lr_annealing_wav2vec s) valid_loss))) |}
    /\ weights s' = weights s.
Proof.
  intros Ht Hck entries valid_loss wer.
  unfold bind at 1. rewrite init_optimizers_run, Hck. cbv zeta.
  unfold bind at 1. rewrite on_stage_end_train.
  match goal with
  | |- context [evaluate_stage VALID e batches ?s0] =>
      rewrite (evaluate_stage_run s0 VALID e batches tok ltac:(discriminate) Ht)
  end.
  rewrite on_stage_end_valid. cbn -[insert lookup singletonM anneal].
  eexists. split; [reflexivity |]. cbn -[insert lookup singletonM anneal].
  repeat split.
Qed.

(** ** The datasets *)




Lemma length_concat_uniform {A} (n : Z) (gs : list (list A)) :
  Forall (fun g => Z.of_nat (List.length g) = n) gs ->
  Z.of_nat (List.length (concat gs)) = n * Z.of_nat (List.length gs).
Proof.
  induction 1 as [|g gs Hg _ IH]; simpl; [lia |].
  rewrite List.length_app. lia.
Qed.

Lemma full_batches_count (n : Z) (its : Yielded Item) (out : Yielded Batch) :
  0 < n ->
  ended_by its = None ->
  full_batches n its out ->
  Z.of_nat (List.length (items out)) = Z.of_nat (List.length (items its)) / n.
Proof.
  intros Hn Hnone (gs & rest & Hout & Hall & Hdata & Hrest).
  specialize (Hrest Hnone). apply length_concat_uniform in Hall.
  rewrite Hout, List.length_map, Hdata, List.length_app.
  apply (Z.div_unique_pos _ n _ (Z.of_nat (List.length rest))); lia.
Qed.

(** X19.  With positive batch sizes, a split whose iteration ran to its
    end yields as many batches as the batch size goes into the number of
    its extracted records, rounded down; a split with fewer records than
    a batch yields no batch at all. *)
Theorem number_of_batches
  (hparams : HParams) (fs : gmap string string) (sh : Shards) :
  0 < batch_size hparams ->
  0 < test_batch_size hparams ->
  let '(train_data, valid_data, test_data, label_encoder, fs') :=
    dataio_prepare hparams fs in
  let extracted pattern :=
    map_yielded (shard_extractor label_encoder) (split_source hparams pattern sh) in
  let records pattern := Z.of_nat (List.length (items (extracted pattern))) in
  let batches (d : Dataset Batch) := Z.of_nat (List.length (items (d sh))) in
  (ended_by (extracted (train_shards hparams)) = None ->
     batches train_data = records (train_shards hparams) / batch_size hparams
     /\ (records (train_shards hparams) < batch_size hparams ->
         items (train_data sh) = []))
  /\ (ended_by (extracted (valid_shards hparams)) = None ->
        batches valid_data = records (valid_shards hparams) / batch_size hparams
        /\ (records (valid_shards hparams) < batch_size hparams ->
            items (valid_data sh) = []))
  /\ (ended_by (extracted (test_shards hparams)) = None ->
        batches test_data = records (test_shards hparams) / test_batch_size hparams
        /\ (records (test_shards hparams) < test_batch_size hparams ->
            items (test_data sh) = [])).
Proof.
  intros Hb Ht. unfold dataio_prepare.
  destruct (load_or_create _ _ fs) as [enc fs']. cbv zeta.
  assert (Hone : forall n (its : Yielded Item),
            0 < n -> ended_by its = None ->
            let out := batch_yielded n PaddedBatch false its in
            Z.of_nat (List.length (items out)) = Z.of_nat (List.length (items its)) / n
            /\ (Z.of_nat (List.length (items its)) < n -> items out = [])).
  { intros n its Hn Hnone out.
    pose proof (full_batches_count n its out Hn Hnone (batch_yielded_full n its Hn))
      as Hcount.
    split; [exact Hcount |]. intros Hfew.
    rewrite Z.div_small in Hcount by lia.
    destruct (items out); [reflexivity | simpl in Hcount; lia]. }
  split; [|split]; intros Hnone; apply Hone; assumption.
Qed.

End FurtherProperties.

(** ** The further properties at work on the small instance *)

Lemma utf8_decoding_round_trip_witness :
  let b := String "h" (String (ascii_of_nat 195) (String (ascii_of_nat 169) "y")) in
  let cs := ["h"; String (ascii_of_nat 195) (String (ascii_of_nat 169) ""); "y"] in
  String.concat "" cs = b
  /\ Forall (fun c => (1 <= String.length c <= 4)%nat) cs
  /\ (List.length cs <= String.length b)%nat.
Proof.
  exact (utf8_decoding_round_trip
           (String "h" (String (ascii_of_nat 195) (String (ascii_of_nat 169) "y")))
           ["h"; String (ascii_of_nat 195) (String (ascii_of_nat 169) ""); "y"]
           eq_refl).
Defined.


Lemma evaluate_batch_never_trains_witness :
  exists loss s',
    evaluate_batch Toy.a_batch VALID (Toy.the_brain true None) = Ok (loss, s')
    /\ weights s' = weights (Toy.the_brain true None)
    /\ grads s' = grads (Toy.the_brain true None).
Proof.
  destruct (evaluate_batch Toy.a_batch VALID (Toy.the_brain true None))
    as [[loss s']|e] eqn:E.
  - exists loss, s'. split; [reflexivity |].
    destruct (evaluate_batch_never_trains _ _ _ _ _ E) as (Hw & Hg & _).
    split; assumption.
  - vm_compute in E. discriminate.
Defined.

Lemma objectives_on_undecoded_predictions_raise_witness :
  compute_objectives
    (compute_forward (Toy.the_brain true None) Toy.a_batch TRAIN)
    Toy.a_batch VALID (Toy.the_brain true None)
  = Raise (TypeError "'NoneType' object is not iterable").
Proof.
  exact (proj2 (objectives_on_undecoded_predictions_raise
                  [] [] Toy.a_batch VALID (Toy.the_brain true None)
                  ltac:(discriminate))).
Defined.

Lemma evaluate_before_stage_start_raises_witness :
  evaluate_batch Toy.a_batch TEST (set_wer_metric None (Toy.the_brain false None))
  = Raise (AttributeError "wer_metric").
Proof.
  exact (evaluate_before_stage_start_raises Toy.a_batch TEST
           (set_wer_metric None (Toy.the_brain false None)) _
           ltac:(discriminate) eq_refl eq_refl).
Defined.

Lemma fit_batch_does_no_bookkeeping_witness :
  exists loss s',
    fit_batch Toy.a_batch (Toy.the_brain true None) = Ok (loss, s')
    /\ wer_metric s' = Some [Toy.old_entry]
    /\ train_logger s' = [].
Proof.
  destruct (fit_batch Toy.a_batch (Toy.the_brain true None)) as [[loss s']|e] eqn:E.
  - exists loss, s'. split; [reflexivity |].
    destruct (fit_batch_does_no_bookkeeping _ _ _ _ E) as (_ & Hw & _ & Hl & _).
    split; assumption.
  - vm_compute in E. discriminate.
Defined.

Lemma validation_without_checkpointer_raises_witness :
  on_stage_end VALID 9 (Some 1) (Toy.the_brain true None)
  = Raise (AttributeError "checkpointer")
  /\ returns (init_optimizers (Toy.the_brain true None)) = true.
Proof.
  exact (validation_without_checkpointer_raises (Toy.the_brain true None) 9 (Some 1)
           _ _ _ _ _ eq_refl eq_refl eq_refl eq_refl eq_refl eq_refl).
Defined.

Lemma stage_end_only_appends_witness :
  exists s',
    on_stage_end TEST 9 None (Toy.the_brain true (Some Toy.empty_ck)) = Ok (tt, s')
    /\ checkpointer s' = Some {| recoverables := ∅; saved := [] ++ [] |}
    /\ model_optimizer s' = Some {| over := model_parameters; opt := 10 |}.
Proof.
  destruct (on_stage_end (F := Toy.framework) TEST 9 None
              (Toy.the_brain true (Some Toy.empty_ck)))
    as [[[] s']|e] eqn:E.
  - exists s'. split; [reflexivity |].
    destruct (stage_end_only_appends _ _ _ _ _ E)
      as (_ & (requests & Hck & Hlen) & _ & Hopt & _).
    destruct requests; [|discriminate Hlen].
    split; [exact Hck |]. destruct (Hopt ltac:(discriminate)) as (Hom & _).
    exact Hom.
  - vm_compute in E. discriminate.
Defined.

Lemma training_loss_reaches_validation_log_witness :
  exists s' line,
    bind (on_stage_end TRAIN 3 (Some 1)) (fun _ => on_stage_end VALID 9 (Some 1))
      (Toy.the_brain true (Some Toy.empty_ck))
    = Ok (tt, s')
    /\ train_logger s' = [line]
    /\ log_train_stats line = Some {[ "loss" := 3 ]}.
Proof.
  destruct (training_loss_reaches_validation_log
              (Toy.the_brain true (Some Toy.empty_ck)) 3 9 (Some 1) _ _ _ _ _
              eq_refl eq_refl eq_refl eq_refl eq_refl)
    as (s' & line & Hrun & Hlog & Hts & _).
  exists s', line. split; [exact Hrun |]. split; [exact Hlog | exact Hts].
Defined.

Lemma main_testing_writes_this_run_witness :
  exists s',
    main_testing [Toy.a_batch]
      (set_wer_file None (set_wer_metric None (Toy.the_brain false None)))
    = Ok (tt, s')
    /\ files s' !! "results/wer_test.txt" = Some "utt1,utt2".
Proof.
  destruct (main_testing_writes_this_run
              (set_wer_file None (set_wer_metric None (Toy.the_brain false None)))
              [Toy.a_batch] _ eq_refl)
    as (s' & line & Hrun & Hfile & _).
  exists s'. split; [exact Hrun |]. exact (eq_trans Hfile eq_refl).
Defined.

Lemma validation_round_from_setup_witness :
  exists s',
    bind init_optimizers
      (fun _ => bind (on_stage_end TRAIN 3 (Some 1))
                  (fun _ => evaluate_stage VALID (Some 1) [Toy.a_batch]))
      (set_train_stats None
         (set_model_optimizer None
            (set_wav2vec_optimizer None (Toy.the_brain false (Some Toy.empty_ck)))))
    = Ok (tt, s')
    /\ option_map (fun ck => List.length (saved ck)) (checkpointer s') = Some 1%nat
    /\ weights s' wav2vec2_parameters = 5.
Proof.
  destruct (validation_round_from_setup
              (set_train_stats None
                 (set_model_optimizer None
                    (set_wav2vec_optimizer None
                       (Toy.the_brain false (Some Toy.empty_ck)))))
              3 (Some 1) [Toy.a_batch] _ _ eq_refl eq_refl)
    as (s' & Hrun & Hck & _ & _ & Hw).
  exists s'. split; [exact Hrun |]. rewrite Hck, Hw. split; reflexivity.
Defined.


Lemma number_of_batches_witness :
  let '(train_data, valid_data, test_data, label_encoder, fs') :=
    dataio_prepare Toy.the_hparams ∅ in
  let extracted pattern :=
    map_yielded (shard_extractor label_encoder)
      (split_source Toy.the_hparams pattern Toy.the_shards) in
  let records pattern := Z.of_nat (List.length (items (extracted pattern))) in
  let batches (d : Dataset Batch) := Z.of_nat (List.length (items (d Toy.the_shards))) in
  (ended_by (extracted "train-*.tar") = None ->
     batches train_data = records "train-*.tar" / 2
     /\ (records "train-*.tar" < 2 -> items (train_data Toy.the_shards) = []))
  /\ (ended_by (extracted "dev-*.tar") = None ->
        batches valid_data = records "dev-*.tar" / 2
        /\ (records "dev-*.tar" < 2 -> items (valid_data Toy.the_shards) = []))
  /\ (ended_by (extracted "test-*.tar") = None ->
        batches test_data = records "test-*.tar" / 2
        /\ (records "test-*.tar" < 2 -> items (test_data Toy.the_shards) = [])).
Proof.
  exact (number_of_batches Toy.the_hparams ∅ Toy.the_shards eq_refl eq_refl).
Defined.

(** Five training records in batches of two make two batches; two
    validation records make one; three test records make one. *)
Example toy_batch_counts :
  let '(train_data, valid_data, test_data, _, _) := dataio_prepare Toy.the_hparams ∅ in
  (List.length (items (train_data Toy.the_shards)),
   List.length (items (valid_data Toy.the_shards)),
   List.length (items (test_data Toy.the_shards))) = (2, 1, 1)%nat.
Proof. vm_compute. reflexivity. Qed.
